(** * Klaviyo campaign/tag sync: the paginated fetch and the flattening

    A shallow embedding of [fetch_campaign_ids_and_tags] and of the
    flattening loop of [main] (src/main.py), with the properties the
    specification states about them.

    The network is a script: the list of responses the server gives to the
    successive [requests.get] calls.  One loop iteration consumes one
    response, so the loop is structurally recursive on the script; a run that
    needs a response the script does not hold ends in [Pending].  What the
    program does to the outside world (requests, log lines, sleeps) is
    collected in a trace. *)

From Stdlib Require Import ZArith List String Ascii Bool Lia.
From Stdlib Require Import DecimalString.
Import ListNotations.
Local Open Scope string_scope.
Local Open Scope list_scope.
Local Open Scope Z_scope.

(** String concatenation, kept apart from list append. *)
Infix "+++" := String.append (at level 60, right associativity).

#[local] Set Warnings "-register-all".

(** ** Python values

    [response.json()] yields Python objects built from JSON: [None], bools,
    integers, strings, lists and dicts.  Floating-point numbers are outside
    the model.  A dict is kept as the list of its items in insertion order,
    keys pairwise distinct as in a Python dict. *)

Inductive pyval : Type :=
| PNone
| PBool (b : bool)
| PInt (n : Z)
| PStr (s : string)
| PList (xs : list pyval)
| PDict (kvs : list (string * pyval)).

(** The exceptions the embedded code can raise. [Exception] is the one the
    program raises itself, the others come from the operations it uses. *)
Inductive exn : Type :=
| Exception (msg : string)
| KeyError (key : string)
| IndexError
| TypeError
| AttributeError
| ValueError
| OverflowError
| OSError
| JSONDecodeError.

(** ** A small error monad *)

Definition result (A : Type) : Type := (exn + A)%type.

Definition ret {A : Type} (a : A) : result A := inr a.

Definition raise {A : Type} (e : exn) : result A := inl e.

Definition bind {A B : Type} (m : result A) (f : A -> result B) : result B :=
  match m with
  | inl e => inl e
  | inr a => f a
  end.

Notation "x <- m ;; k" := (bind m (fun x => k))
  (at level 61, m at next level, right associativity).

(** ** The Python operations the code applies to these values *)

(** Lookup in the items of a dict. *)
Fixpoint dict_lookup (key : string) (kvs : list (string * pyval)) : option pyval :=
  match kvs with
  | [] => None
  | (k, v) :: rest => if String.eqb k key then Some v else dict_lookup key rest
  end.

(** [a == b].  A bool compares as the integer 0 or 1; lists compare
    item by item; dicts compare as sets of items. *)
Fixpoint py_eq (a b : pyval) {struct a} : bool :=
  match a, b with
  | PNone, PNone => true
  | PBool x, PBool y => Bool.eqb x y
  | PBool x, PInt n => Z.eqb (Z.b2z x) n
  | PInt n, PBool y => Z.eqb n (Z.b2z y)
  | PInt n, PInt m => Z.eqb n m
  | PStr s, PStr t => String.eqb s t
  | PList xs, PList ys =>
      (fix eq_items (xs ys : list pyval) {struct xs} : bool :=
         match xs, ys with
         | [], [] => true
         | x :: xs', y :: ys' => py_eq x y && eq_items xs' ys'
         | _, _ => false
         end) xs ys
  | PDict kvs, PDict kws =>
      Nat.eqb (List.length kvs) (List.length kws) &&
      (fix eq_dict (kvs : list (string * pyval)) {struct kvs} : bool :=
         match kvs with
         | [] => true
         | (k, v) :: rest =>
             match dict_lookup k kws with
             | Some w => py_eq v w && eq_dict rest
             | None => false
             end
         end) kvs
  | _, _ => false
  end.

(** [bool(v)]. *)
Definition py_truthy (v : pyval) : bool :=
  match v with
  | PNone => false
  | PBool b => b
  | PInt n => negb (Z.eqb n 0)
  | PStr s => negb (String.eqb s "")
  | PList xs => match xs with [] => false | _ => true end
  | PDict kvs => match kvs with [] => false | _ => true end
  end.

(** [v[key]] for a string key. *)
Definition py_getitem (v : pyval) (key : string) : result pyval :=
  match v with
  | PDict kvs =>
      match dict_lookup key kvs with
      | Some w => ret w
      | None => raise (KeyError key)
      end
  | _ => raise TypeError
  end.

(** [v.get(key, default)]: only a dict has the method. *)
Definition py_get (v : pyval) (key : string) (default : pyval) : result pyval :=
  match v with
  | PDict kvs =>
      match dict_lookup key kvs with
      | Some w => ret w
      | None => ret default
      end
  | _ => raise AttributeError
  end.

(** The characters of a string, each as a string of length one. *)
Fixpoint chars (s : string) : list pyval :=
  match s with
  | EmptyString => []
  | String c rest => PStr (String c EmptyString) :: chars rest
  end.

(** [for x in v]: the items a [for] loop (or a generator) runs through. *)
Definition py_iter (v : pyval) : result (list pyval) :=
  match v with
  | PList xs => ret xs
  | PDict kvs => ret (map (fun kv => PStr (fst kv)) kvs)
  | PStr s => ret (chars s)
  | _ => raise TypeError
  end.

(** Substring test, for [key in v] on a string. *)
Fixpoint is_substring (p s : string) : bool :=
  String.prefix p s ||
  match s with
  | EmptyString => false
  | String _ rest => is_substring p rest
  end.

(** [key in v] for a string key. *)
Definition py_contains (v : pyval) (key : string) : result bool :=
  match v with
  | PDict kvs => ret (match dict_lookup key kvs with Some _ => true | None => false end)
  | PList xs => ret (existsb (fun x => py_eq x (PStr key)) xs)
  | PStr s => ret (is_substring key s)
  | _ => raise TypeError
  end.

(** [str(n)] for an integer. *)
Definition py_str_int (n : Z) : string := NilZero.string_of_int (Z.to_int n).

(** ** Data model *)

(** An entry of a campaign's ['tags'] list: [{'tag_id': .., 'tag_name': ..}].
    The fields hold the Python objects taken from the response; an absent
    name is [None]. *)
Record TagRef : Type := mkTagRef {
  tag_id : pyval;
  tag_name : pyval
}.

(** An entry of [campaign_ids_and_tags]. *)
Record CampaignRecord : Type := mkCampaignRecord {
  campaign_id : pyval;
  campaign_name : pyval;
  tags : list TagRef
}.

(** An entry of [all_campaign_tags]. *)
Record CampaignTagRow : Type := mkCampaignTagRow {
  row_campaign_id : pyval;
  row_campaign_name : pyval;
  row_tag_id : pyval;
  row_tag_name : pyval
}.

(** What the code reads of a [requests] response.  [retry_after_header] is
    [response.headers.get('Retry-After')]; [json] is [response.json()], [None]
    when the body is not JSON. *)
Record response : Type := mkResponse {
  status_code : Z;
  retry_after_header : option string;
  text : string;
  json : option pyval
}.

(** The arguments of one [requests.get] call. *)
Record request : Type := mkRequest {
  req_url : string;
  req_headers : list (string * string);
  req_params : list (string * string)
}.

(** What a run does to the outside world, in order. *)
Inductive event : Type :=
| Get (rq : request)
| Warning (msg : string)
| Sleep (seconds : Z).

(** How a run ends: the list is returned, an exception leaves the function,
    or the run is waiting for a response the script does not hold. *)
Inductive outcome : Type :=
| Returned (records : list CampaignRecord)
| Raised (e : exn)
| Pending.

Definition run : Type := (outcome * list event)%type.

Definition emit (ev : event) (r : run) : run := (fst r, ev :: snd r).

Definition len {A : Type} (l : list A) : Z := Z.of_nat (List.length l).

Definition dquote : string := String "034"%char EmptyString.

(** ** The flattening loop of [main] *)

(** The inner loop: one row per tag, appended to [all_campaign_tags]. *)
Definition flatten_tags (c : CampaignRecord) (all_campaign_tags : list CampaignTagRow)
  : list CampaignTagRow :=
  fold_left
    (fun rows tag =>
       rows ++ [mkCampaignTagRow (campaign_id c) (campaign_name c)
                                 (tag_id tag) (tag_name tag)])
    (tags c) all_campaign_tags.

(** The outer loop over [campaign_list], from the empty list. *)
Definition flatten (campaign_list : list CampaignRecord) : list CampaignTagRow :=
  fold_left (fun rows c => flatten_tags c rows) campaign_list [].

(** ** The fetch *)

Section Fetch.

(** Library functions the code calls, taken as they are. *)

(** [int(s)] on a string; [None] when it raises [ValueError]. *)
Variable py_int_of_str : string -> option Z.

(** [time.sleep(n)] for a delay that is not negative: [None] when the
    platform sleeps, the exception it raises ([OverflowError], [OSError])
    for a delay it cannot sleep. *)
Variable sleep_error : Z -> option exn.

(** [urllib.parse.urlparse(u).query] on a string. *)
Variable urlparse_query : string -> result string.

(** [urllib.parse.parse_qs(q)]: the dict from names to lists of values. *)
Variable parse_qs : string -> list (string * list string).

(** The arguments of the call. *)
Variable api_key : string.
Variable channel : string.
Variable limit : Z.

Definition url : string := "https://a.klaviyo.com/api/campaigns/".

Definition headers : list (string * string) :=
  [ ("Authorization", "Klaviyo-API-Key " +++ api_key);
    ("Accept", "application/json");
    ("Revision", "2024-07-15") ].

(** [bool(page_cursor)]: a cursor is [None] or a string. *)
Definition cursor_truthy (page_cursor : option string) : bool :=
  match page_cursor with
  | Some c => negb (String.eqb c "")
  | None => false
  end.

(** The request of one iteration: the cursor is sent when it is truthy. *)
Definition make_request (page_cursor : option string) : request :=
  let params :=
    [ ("filter", "equals(messages.channel," +++ dquote +++ channel +++ dquote +++ ")");
      ("fields[tag]", "name");
      ("include", "tags") ] in
  mkRequest url headers
    (match page_cursor with
     | Some c => if cursor_truthy page_cursor then params ++ [("page[cursor]", c)] else params
     | None => params
     end).

(** [int(response.headers.get('Retry-After', 60))]. *)
Definition retry_after (r : response) : result Z :=
  match retry_after_header r with
  | None => ret 60
  | Some s =>
      match py_int_of_str s with
      | Some n => ret n
      | None => raise ValueError
      end
  end.

(** The generator of lines 80-82 run by [next(.., None)]: the name of the
    first item of type ['tag'] whose id equals [tid]. *)
Fixpoint first_tag_name (items : list pyval) (tid : pyval) : result pyval :=
  match items with
  | [] => ret PNone
  | included :: rest =>
      ty <- py_getitem included "type";;
      if py_eq ty (PStr "tag") then
        id <- py_getitem included "id";;
        if py_eq id tid then
          attributes <- py_getitem included "attributes";;
          py_getitem attributes "name"
        else first_tag_name rest tid
      else first_tag_name rest tid
  end.

Definition resolve_tag_name (data : pyval) (tid : pyval) : result pyval :=
  included <- py_get data "included" (PList []);;
  items <- py_iter included;;
  first_tag_name items tid.

(** The loop over [tags_data], appending to [tags]. *)
Fixpoint tags_loop (data : pyval) (tags_data : list pyval) (tags : list TagRef)
  : result (list TagRef) :=
  match tags_data with
  | [] => ret tags
  | tag :: rest =>
      tid <- py_getitem tag "id";;
      name <- resolve_tag_name data tid;;
      tags_loop data rest (tags ++ [mkTagRef tid name])
  end.

(** Line 75: [campaign.get('relationships', {}).get('tags', {}).get('data', [])]. *)
Definition tags_data_of (campaign : pyval) : result pyval :=
  relationships <- py_get campaign "relationships" (PDict []);;
  rel_tags <- py_get relationships "tags" (PDict []);;
  py_get rel_tags "data" (PList []).

(** The body of the loop over [data['data']] up to the append: the record
    built from one campaign. *)
Definition campaign_record (data : pyval) (campaign : pyval) : result CampaignRecord :=
  cid <- py_getitem campaign "id";;
  attributes <- py_getitem campaign "attributes";;
  cname <- py_getitem attributes "name";;
  tags_data <- tags_data_of campaign;;
  tag_items <- py_iter tags_data;;
  tags <- tags_loop data tag_items [];;
  ret (mkCampaignRecord cid cname tags).

(** The loop over [data['data']]: append, and [break] at the limit. *)
Fixpoint campaigns_loop (data : pyval) (campaigns : list pyval)
                        (campaign_ids_and_tags : list CampaignRecord)
  : result (list CampaignRecord) :=
  match campaigns with
  | [] => ret campaign_ids_and_tags
  | campaign :: rest =>
      rec <- campaign_record data campaign;;
      let acc := campaign_ids_and_tags ++ [rec] in
      if len acc >=? limit then ret acc
      else campaigns_loop data rest acc
  end.

(** Lookup in the dict [parse_qs] returns. *)
Fixpoint qs_lookup (key : string) (qs : list (string * list string)) : option (list string) :=
  match qs with
  | [] => None
  | (k, vs) :: rest => if String.eqb k key then Some vs else qs_lookup key rest
  end.

(** Lines 100-105: the next cursor.  [urlparse] takes a string; any other
    truthy object has no [decode] and raises [AttributeError]. *)
Definition next_page_cursor (data : pyval) : result (option string) :=
  links <- py_get data "links" (PDict []);;
  next_link <- py_get links "next" PNone;;
  if py_truthy next_link then
    match next_link with
    | PStr u =>
        query <- urlparse_query u;;
        match qs_lookup "page[cursor]" (parse_qs query) with
        | None => ret None
        | Some [] => raise IndexError
        | Some (c :: _) => ret (Some c)
        end
    | _ => raise AttributeError
    end
  else ret None.

(** The [while] loop of lines 49-107.  A script entry is what one
    [requests.get] call does: it returns a response or raises.  On a 429 the
    loop goes round again with its state as it was ([continue]).
    [time.sleep] raises [ValueError] on a negative delay and what
    [sleep_error] says on a delay the platform cannot sleep; either leaves the
    function, after the warning was logged.  [paginate] is lines
    99-107, run after the campaigns of the page and after the warning
    alike, also when the loop over the campaigns was left by [break]. *)
Fixpoint fetch_loop (script : list (result response))
                    (campaign_ids_and_tags : list CampaignRecord)
                    (has_next : bool) (page_cursor : option string) : run :=
  if has_next && (len campaign_ids_and_tags <? limit) then
    match script with
    | [] => (Pending, [])
    | reply :: rest =>
        emit (Get (make_request page_cursor))
          match reply with
          | inl e => (Raised e, [])
          | inr r =>
              if status_code r =? 429 then
                match retry_after r with
                | inl e => (Raised e, [])
                | inr n =>
                    emit (Warning ("Rate limit exceeded. Retrying after "
                                   +++ py_str_int n +++ " seconds."))
                      (if n <? 0 then (Raised ValueError, [])
                       else
                         match sleep_error n with
                         | Some e => (Raised e, [])
                         | None =>
                             emit (Sleep n)
                               (fetch_loop rest campaign_ids_and_tags has_next page_cursor)
                         end)
                end
              else if negb (status_code r =? 200) then
                (Raised (Exception ("Error fetching campaigns: " +++ text r)), [])
              else
                match json r with
                | None => (Raised JSONDecodeError, [])
                | Some data =>
                    let paginate := fun acc =>
                      match next_page_cursor data with
                      | inl e => (Raised e, [])
                      | inr cursor => fetch_loop rest acc (cursor_truthy cursor) cursor
                      end in
                    match py_contains data "data" with
                    | inl e => (Raised e, [])
                    | inr true =>
                        match (campaigns_v <- py_getitem data "data";;
                               campaigns <- py_iter campaigns_v;;
                               campaigns_loop data campaigns campaign_ids_and_tags) with
                        | inl e => (Raised e, [])
                        | inr acc => paginate acc
                        end
                    | inr false =>
                        emit (Warning ("No campaigns found in response: " +++ text r))
                          (paginate campaign_ids_and_tags)
                    end
                end
          end
    end
  else (Returned campaign_ids_and_tags, []).

(** [fetch_campaign_ids_and_tags(api_key, channel, limit)] against a script. *)
Definition fetch_campaign_ids_and_tags (script : list (result response)) : run :=
  fetch_loop script [] true None.

End Fetch.

(** ** Reference instances of the library functions

    Plain ASCII fragments of [int], [urlparse(..).query] and [parse_qs],
    enough to run the code on concrete responses: decimal integers with an
    optional minus sign, the text between the first [?] and the first [#],
    and [name=value] fields separated by [&] without percent-decoding; and
    the bound of [time.sleep] on a reference platform. *)

Module Reference.

Fixpoint digits_value (s : string) (acc : Z) : option Z :=
  match s with
  | EmptyString => Some acc
  | String c rest =>
      let d := Z.of_nat (nat_of_ascii c) - 48 in
      if (0 <=? d) && (d <=? 9) then digits_value rest (10 * acc + d) else None
  end.

Definition int_of_str (s : string) : option Z :=
  match s with
  | EmptyString => None
  | String "-"%char EmptyString => None
  | String "-"%char rest => option_map Z.opp (digits_value rest 0)
  | _ => digits_value s 0
  end.

(** [time.sleep] of CPython 3.11 on Linux: a delay whose nanoseconds do not
    fit 64 bits raises [OverflowError], the largest delay that fits is
    refused by the system clock.  (Delays within the machine's uptime of that
    bound are not told apart from the ones below.) *)
Definition sleep_error (n : Z) : option exn :=
  if 9223372036 <? n then Some OverflowError
  else if n =? 9223372036 then Some OSError
  else None.

(** The text before the first [c]. *)
Fixpoint before (c : ascii) (s : string) : string :=
  match s with
  | EmptyString => EmptyString
  | String d rest => if Ascii.eqb c d then EmptyString else String d (before c rest)
  end.

(** The text after the first [c], empty when there is none. *)
Fixpoint after (c : ascii) (s : string) : string :=
  match s with
  | EmptyString => EmptyString
  | String d rest => if Ascii.eqb c d then rest else after c rest
  end.

Definition query (u : string) : result string :=
  ret (after "?"%char (before "#"%char u)).

(** The pieces of [s] between occurrences of [c]. *)
Fixpoint split_on (c : ascii) (s : string) : list string :=
  match s with
  | EmptyString => [EmptyString]
  | String d rest =>
      if Ascii.eqb c d then EmptyString :: split_on c rest
      else match split_on c rest with
           | [] => [String d EmptyString]
           | piece :: pieces => String d piece :: pieces
           end
  end.

Fixpoint has_char (c : ascii) (s : string) : bool :=
  match s with
  | EmptyString => false
  | String d rest => Ascii.eqb c d || has_char c rest
  end.

(** Append [value] to the list kept under [name]. *)
Fixpoint add_value (name value : string) (qs : list (string * list string))
  : list (string * list string) :=
  match qs with
  | [] => [(name, [value])]
  | (k, vs) :: rest =>
      if String.eqb k name then (k, vs ++ [value]) :: rest
      else (k, vs) :: add_value name value rest
  end.

Definition parse_qs (q : string) : list (string * list string) :=
  fold_left
    (fun qs field =>
       if has_char "="%char field then
         let value := after "="%char field in
         if String.eqb value "" then qs
         else add_value (before "="%char field) value qs
       else qs)
    (split_on "&"%char q) [].

End Reference.

(** The fetch with the reference instances. *)
Definition reference_fetch (api_key channel : string) (limit : Z)
  (script : list (result response)) : run :=
  fetch_campaign_ids_and_tags Reference.int_of_str Reference.sleep_error Reference.query Reference.parse_qs
    api_key channel limit script.

(** ** Building responses for the examples *)

Definition tag_ref (id : string) : pyval := PDict [("type", PStr "tag"); ("id", PStr id)].

Definition tag_entity (id name : string) : pyval :=
  PDict [("type", PStr "tag"); ("id", PStr id);
         ("attributes", PDict [("name", PStr name)])].

Definition campaign (id name : string) (tag_ids : list string) : pyval :=
  PDict [("type", PStr "campaign"); ("id", PStr id);
         ("attributes", PDict [("name", PStr name)]);
         ("relationships",
          PDict [("tags", PDict [("data", PList (map tag_ref tag_ids))])])].

Definition page (campaigns included : list pyval) (next_link : option string) : pyval :=
  PDict [("data", PList campaigns);
         ("included", PList included);
         ("links", PDict [("next", match next_link with Some u => PStr u | None => PNone end)])].

Definition ok (body : pyval) : result response :=
  inr (mkResponse 200 None "<json>" (Some body)).

(** ** Notions used to state the properties *)

(** The row made of a campaign and one of its tags. *)
Definition row_of (c : CampaignRecord) (t : TagRef) : CampaignTagRow :=
  mkCampaignTagRow (campaign_id c) (campaign_name c) (tag_id t) (tag_name t).

(** The items of the response's ['included'] collection, as the scan for a
    tag name runs through them. *)
Definition included_items (data : pyval) : result (list pyval) :=
  included <- py_get data "included" (PList []);;
  py_iter included.

(** A side-loaded entity as the interface describes it: an object with a
    ['type'] and an ['id']. *)
Definition is_entity (v : pyval) : bool :=
  match v with
  | PDict kvs =>
      match dict_lookup "type" kvs, dict_lookup "id" kvs with
      | Some _, Some _ => true
      | _, _ => false
      end
  | _ => false
  end.

(** An entity of type ["tag"] whose id equals [tid]. *)
Definition is_tag_with_id (tid : pyval) (v : pyval) : bool :=
  match v with
  | PDict kvs =>
      match dict_lookup "type" kvs, dict_lookup "id" kvs with
      | Some ty, Some id => py_eq ty (PStr "tag") && py_eq id tid
      | _, _ => false
      end
  | _ => false
  end.

(** [included['attributes']['name']]. *)
Definition entity_name (v : pyval) : result pyval :=
  attributes <- py_getitem v "attributes";;
  py_getitem attributes "name".

(** The tag references of a campaign, as the loop over [tags_data] runs
    through them. *)
Definition tag_items_of (campaign : pyval) : result (list pyval) :=
  tags_data <- tags_data_of campaign;;
  py_iter tags_data.

(** The log lines of a trace, in order. *)
Definition warnings_of (tr : list event) : list string :=
  flat_map (fun ev => match ev with Warning msg => [msg] | _ => [] end) tr.

(** ** Example responses *)

(** Campaign A with the tags t1 and t2, campaign B without tags. *)
Definition campaign_a : pyval := campaign "A" "Alpha" ["t1"; "t2"].
Definition campaign_b : pyval := campaign "B" "Beta" [].

Definition vip_and_sale : list pyval := [tag_entity "t1" "VIP"; tag_entity "t2" "Sale"].

(** The single page of the two, without a next link. *)
Definition last_page : pyval := page [campaign_a; campaign_b] vip_and_sale None.

(** The same page with a next link that carries the cursor [c2]. *)
Definition first_page : pyval :=
  page [campaign_a; campaign_b] vip_and_sale
       (Some "https://a.klaviyo.com/api/campaigns/?page[cursor]=c2").

Definition record_a : CampaignRecord :=
  mkCampaignRecord (PStr "A") (PStr "Alpha")
    [mkTagRef (PStr "t1") (PStr "VIP"); mkTagRef (PStr "t2") (PStr "Sale")].

Definition record_b : CampaignRecord := mkCampaignRecord (PStr "B") (PStr "Beta") [].

(** A page whose campaign refers to a tag that is not side-loaded. *)
Definition page_missing_tag : pyval :=
  page [campaign "A" "Alpha" ["t1"; "t9"]] [tag_entity "t1" "VIP"] None.

(** A page that side-loads the tag t1 twice, under two names. *)
Definition page_duplicate_tag : pyval :=
  page [campaign "A" "Alpha" ["t1"]]
       [tag_entity "t0" "Zero"; tag_entity "t1" "VIP"; tag_entity "t1" "Other"] None.

Definition rate_limited (retry_after : option string) : response :=
  mkResponse 429 retry_after "slow down" None.

(** The first request of a run with the key [k] and the channel [email]. *)
Definition first_request : request := make_request "k" "email" None.

(** ** The rest of [main] *)

(** What [main] does to the outside world: what the fetch does, its own log
    lines, and the call of [client.load_table_from_dataframe] with the table id
    and the rows of the data frame (the job is configured with
    [WRITE_TRUNCATE]: the rows replace the table). *)
Inductive main_event : Type :=
| Fetching (ev : event)
| Info (msg : string)
| MainWarning (msg : string)
| LoadTable (table : string) (rows : list CampaignTagRow).

(** How [main] ends: it returns, an exception leaves it, or it is waiting
    for a response the script does not hold. *)
Inductive main_outcome : Type :=
| Completed
| Failed (e : exn)
| Waiting.

Section Main.

Variable py_int_of_str : string -> option Z.
Variable sleep_error : Z -> option exn.
Variable urlparse_query : string -> result string.
Variable parse_qs : string -> list (string * list string).

(** The module-level names [main] reads. *)
Variable KLAVIYO_API_KEY : string.
Variable FULL_TABLE_ID : string.

(** Lines 133-157, after the rows are built.  [load] is what the load job
    does: [None] when [job.result()] returns, the exception otherwise.  The
    data frame has the rows of [all_campaign_tags], none when the list is
    empty. *)
Definition load_rows (all_campaign_tags : list CampaignTagRow) (load : option exn)
  : main_outcome * list main_event :=
  let warning :=
    match all_campaign_tags with
    | [] => [MainWarning "No campaign tags fetched."]
    | _ => []
    end in
  let before :=
    warning
    ++ [Info ("Loading data into BigQuery table " +++ FULL_TABLE_ID +++ "...");
        LoadTable FULL_TABLE_ID all_campaign_tags] in
  match load with
  | Some e => (Failed e, before)
  | None =>
      (Completed,
       before ++ [Info ("Loaded " +++ py_str_int (len all_campaign_tags)
                        +++ " rows into " +++ FULL_TABLE_ID +++ ".")])
  end.

(** [main()]: the fetch with the default channel and the limit 1000, the
    flattening, the load. *)
Definition main (script : list (result response)) (load : option exn)
  : main_outcome * list main_event :=
  let fetched :=
    fetch_campaign_ids_and_tags py_int_of_str sleep_error urlparse_query parse_qs
      KLAVIYO_API_KEY "email" 1000 script in
  let started := Info "Fetching campaign IDs and tags..." :: map Fetching (snd fetched) in
  match fst fetched with
  | Raised e => (Failed e, started)
  | Pending => (Waiting, started)
  | Returned campaign_list =>
      let all_campaign_tags := flatten campaign_list in
      let loaded := load_rows all_campaign_tags load in
      (fst loaded,
       started
       ++ [Info ("Fetched " +++ py_str_int (len campaign_list)
                 +++ " campaigns with tags.");
           Info ("Fetched " +++ py_str_int (len all_campaign_tags)
                 +++ " campaign-tag relationships.")]
       ++ snd loaded)
  end.

End Main.

(** ** Further notions used to state properties *)

(** A function applied to every item in turn; the first exception ends it. *)
Fixpoint mapM {A B : Type} (f : A -> result B) (l : list A) : result (list B) :=
  match l with
  | [] => ret []
  | a :: rest =>
      b <- f a;;
      bs <- mapM f rest;;
      ret (b :: bs)
  end.

(** The entry of a campaign's tag list made from one tag reference. *)
Definition tag_entry (data : pyval) (tag : pyval) : result TagRef :=
  tid <- py_getitem tag "id";;
  name <- resolve_tag_name data tid;;
  ret (mkTagRef tid name).

(** The requests and the sleeps of a trace, in order. *)
Definition requests_of (tr : list event) : list request :=
  flat_map (fun ev => match ev with Get rq => [rq] | _ => [] end) tr.

Definition sleeps_of (tr : list event) : list Z :=
  flat_map (fun ev => match ev with Sleep n => [n] | _ => [] end) tr.

(** The loads of a trace of [main], in order. *)
Definition loads_of (tr : list main_event) : list (string * list CampaignTagRow) :=
  flat_map (fun ev => match ev with LoadTable t rows => [(t, rows)] | _ => [] end) tr.

Definition main_warnings_of (tr : list main_event) : list string :=
  flat_map (fun ev => match ev with MainWarning msg => [msg] | _ => [] end) tr.

(** A 429 response whose delay is an integer that is not negative and that
    the platform can sleep. *)
Definition retriable (py_int_of_str : string -> option Z)
  (sleep_error : Z -> option exn) (r : response) : bool :=
  (status_code r =? 429) &&
  match retry_after py_int_of_str r with
  | inr n =>
      (0 <=? n) && match sleep_error n with None => true | Some _ => false end
  | inl _ => false
  end.

(** The delay of such a response. *)
Definition delay_of (py_int_of_str : string -> option Z) (r : response) : Z :=
  match retry_after py_int_of_str r with
  | inr n => n
  | inl _ => 0
  end.

(** What one rate-limited iteration does. *)
Definition retry_events (py_int_of_str : string -> option Z) (rq : request) (r : response)
  : list event :=
  [ Get rq;
    Warning ("Rate limit exceeded. Retrying after "
             +++ py_str_int (delay_of py_int_of_str r) +++ " seconds.");
    Sleep (delay_of py_int_of_str r) ].

(** The parameters every request carries. *)
Definition base_params (channel : string) : list (string * string) :=
  [ ("filter", "equals(messages.channel," +++ dquote +++ channel +++ dquote +++ ")");
    ("fields[tag]", "name");
    ("include", "tags") ].

Definition is_dict (v : pyval) : bool :=
  match v with
  | PDict _ => true
  | _ => false
  end.

(** The reference instance of [main], writing to the table [p.d.t]. *)
Definition reference_main (script : list (result response)) (load : option exn)
  : main_outcome * list main_event :=
  main Reference.int_of_str Reference.sleep_error Reference.query Reference.parse_qs "k" "p.d.t" script load.

(** ** Further example values *)

(** A side-loaded tag whose id is the number 1, not the string. *)
Definition tag_with_number_id : list (string * pyval) :=
  [("type", PStr "tag"); ("id", PInt 1); ("attributes", PDict [("name", PStr "One")])].

(** A campaign with an id and a name and nothing else. *)
Definition bare_campaign : list (string * pyval) :=
  [("id", PStr "A"); ("attributes", PDict [("name", PStr "Alpha")])].

(** The same with [null] relationships. *)
Definition campaign_null_relationships : list (string * pyval) :=
  bare_campaign ++ [("relationships", PNone)].

(** A campaign without an id. *)
Definition campaign_without_id : pyval :=
  PDict [("attributes", PDict [("name", PStr "Nameless")])].

(** A page whose second campaign has no id. *)
Definition page_with_bad_campaign : pyval :=
  page [campaign_a; campaign_without_id; campaign_b] vip_and_sale None.


Definition ok_response (body : pyval) : response :=
  mkResponse 200 None "<json>" (Some body).

(** The items of [first_page]. *)
Definition first_page_items : list (string * pyval) :=
  [("data", PList [campaign_a; campaign_b]);
   ("included", PList vip_and_sale);
   ("links", PDict [("next", PStr "https://a.klaviyo.com/api/campaigns/?page[cursor]=c2")])].

(** The loop and the fetch with the reference instances. *)
Definition reference_loop (limit : Z) (script : list (result response))
  (acc : list CampaignRecord) (page_cursor : option string) : run :=
  fetch_loop Reference.int_of_str Reference.sleep_error Reference.query Reference.parse_qs
    "k" "email" limit script acc true page_cursor.
(** * Properties *)

(** ** The flattening *)

Lemma fold_append_map {A B : Type} (f : A -> B) (l : list A) (acc : list B) :
  fold_left (fun rows a => rows ++ [f a]) l acc = acc ++ map f l.
Proof.
  revert acc; induction l as [|a l IH]; intros acc; cbn.
  - now rewrite app_nil_r.
  - now rewrite IH, <- app_assoc.
Qed.

Lemma flatten_tags_rows (c : CampaignRecord) (rows : list CampaignTagRow) :
  flatten_tags c rows = rows ++ map (row_of c) (tags c).
Proof. unfold flatten_tags. apply (fold_append_map (row_of c)). Qed.

Lemma flatten_from (campaign_list : list CampaignRecord) (rows : list CampaignTagRow) :
  fold_left (fun rows c => flatten_tags c rows) campaign_list rows
  = rows ++ flat_map (fun c => map (row_of c) (tags c)) campaign_list.
Proof.
  revert rows; induction campaign_list as [|c l IH]; intros rows; cbn.
  - now rewrite app_nil_r.
  - now rewrite IH, flatten_tags_rows, <- app_assoc.
Qed.

Lemma flatten_flat_map (campaign_list : list CampaignRecord) :
  flatten campaign_list = flat_map (fun c => map (row_of c) (tags c)) campaign_list.
Proof. unfold flatten. now rewrite flatten_from. Qed.

Lemma flatten_app (l1 l2 : list CampaignRecord) :
  flatten (l1 ++ l2) = flatten l1 ++ flatten l2.
Proof. rewrite !flatten_flat_map. apply flat_map_app. Qed.

(** C2: the flattening is a total function of the campaign list; it gives
    as many rows as the campaigns have tags in all, and a campaign without
    tags adds no row, wherever it stands in the list. *)
Theorem flatten_row_count (campaign_list : list CampaignRecord) :
  List.length (flatten campaign_list)
  = list_sum (map (fun c => List.length (tags c)) campaign_list)
  /\ forall (before after : list CampaignRecord) (id name : pyval),
       flatten (before ++ mkCampaignRecord id name [] :: after)
       = flatten (before ++ after).
Proof.
  split.
  - rewrite flatten_flat_map.
    induction campaign_list as [|c l IH]; cbn; [reflexivity|].
    now rewrite length_app, length_map, IH.
  - intros before after id name.
    now rewrite !flatten_app.
Qed.

(** C3: the rows are, campaign after campaign in the order of the list and
    tag after tag in the order of the campaign's tags, the campaign's id and
    name and the tag's id and name as they stand in the records. *)
Theorem flatten_rows_in_order (campaign_list : list CampaignRecord) :
  flatten campaign_list
  = flat_map
      (fun c =>
         map (fun t => mkCampaignTagRow (campaign_id c) (campaign_name c)
                                        (tag_id t) (tag_name t))
             (tags c))
      campaign_list.
Proof. apply flatten_flat_map. Qed.

(** ** Resolving tag names in the side-loaded collection *)

(** The scan passes over an entity that is not the tag looked for. *)
Lemma first_tag_name_pass tid item rest :
  is_entity item = true ->
  is_tag_with_id tid item = false ->
  first_tag_name (item :: rest) tid = first_tag_name rest tid.
Proof.
  intros W M. destruct item as [| | | | |kvs]; try discriminate.
  cbn in *.
  destruct (dict_lookup "type" kvs) as [ty|]; [|discriminate].
  destruct (dict_lookup "id" kvs) as [id|]; [|discriminate].
  cbn. destruct (py_eq ty (PStr "tag")); [|reflexivity].
  cbn in *. now rewrite M.
Qed.

Lemma first_tag_name_skip tid earlier rest :
  forallb is_entity earlier = true ->
  existsb (is_tag_with_id tid) earlier = false ->
  first_tag_name (earlier ++ rest) tid = first_tag_name rest tid.
Proof.
  induction earlier as [|item earlier IH]; intros W M; [reflexivity|].
  cbn [forallb existsb] in W, M.
  apply andb_prop in W as [W1 W2]. apply orb_false_elim in M as [M1 M2].
  rewrite <- app_comm_cons, first_tag_name_pass by assumption.
  now apply IH.
Qed.

(** The scan stops at the first tag with the id looked for. *)
Lemma first_tag_name_hit tid item rest :
  is_tag_with_id tid item = true ->
  first_tag_name (item :: rest) tid = entity_name item.
Proof.
  intros T. destruct item as [| | | | |kvs]; try discriminate.
  cbn in *.
  destruct (dict_lookup "type" kvs) as [ty|]; [|discriminate].
  destruct (dict_lookup "id" kvs) as [id|]; [|discriminate].
  apply andb_prop in T as [T1 T2]. cbn. now rewrite T1, T2.
Qed.

Lemma resolve_by_scan data items tid :
  included_items data = inr items ->
  resolve_tag_name data tid = first_tag_name items tid.
Proof.
  unfold included_items, resolve_tag_name. intros I.
  destruct (py_get data "included" (PList [])) as [e|inc]; [discriminate|].
  cbn in *. now rewrite I.
Qed.

(** The loop over the tag references appends to the list it is given. *)
Lemma tags_loop_acc data items : forall acc,
  tags_loop data items acc
  = (out <- tags_loop data items [];; ret (acc ++ out)).
Proof.
  induction items as [|tag rest IH]; intros acc; cbn.
  - now rewrite app_nil_r.
  - destruct (py_getitem tag "id") as [e|tid]; [reflexivity|]. cbn.
    destruct (resolve_tag_name data tid) as [e|name]; [reflexivity|]. cbn.
    rewrite (IH (acc ++ _)), (IH [_]).
    destruct (tags_loop data rest []) as [e|out]; [reflexivity|]. cbn.
    now rewrite <- app_assoc.
Qed.

(** Every tag reference gives the entry at its own position. *)
Lemma tags_loop_nth data items : forall out i tag tid name,
  tags_loop data items [] = inr out ->
  nth_error items i = Some tag ->
  py_getitem tag "id" = inr tid ->
  resolve_tag_name data tid = inr name ->
  nth_error out i = Some (mkTagRef tid name).
Proof.
  induction items as [|t rest IH]; intros out i tag tid name E Hn Hid Hname.
  - destruct i; discriminate.
  - cbn in E.
    destruct (py_getitem t "id") as [e|tid0] eqn:Hid0; [discriminate|]. cbn in E.
    destruct (resolve_tag_name data tid0) as [e|name0] eqn:Hname0; [discriminate|].
    cbn in E. rewrite tags_loop_acc in E.
    destruct (tags_loop data rest []) as [e|out'] eqn:Hrest; [discriminate|].
    cbn in E. injection E as <-.
    destruct i as [|i]; cbn in Hn |- *.
    + injection Hn as ->. rewrite Hid in Hid0. injection Hid0 as <-.
      rewrite Hname in Hname0. now injection Hname0 as <-.
    + now apply (IH out' i tag tid name).
Qed.

Lemma tags_loop_length data items : forall out,
  tags_loop data items [] = inr out -> List.length out = List.length items.
Proof.
  induction items as [|t rest IH]; intros out E; cbn in E.
  - now injection E as <-.
  - destruct (py_getitem t "id") as [e|tid0]; [discriminate|]. cbn in E.
    destruct (resolve_tag_name data tid0) as [e|name0]; [discriminate|].
    cbn in E. rewrite tags_loop_acc in E.
    destruct (tags_loop data rest []) as [e|out'] eqn:Hrest; [discriminate|].
    cbn in E. injection E as <-. cbn. f_equal. now apply IH.
Qed.

(** The tags of a record are what the loop over its references gives. *)
Lemma campaign_record_tags data campaign c tag_items :
  campaign_record data campaign = inr c ->
  tag_items_of campaign = inr tag_items ->
  tags_loop data tag_items [] = inr (tags c).
Proof.
  unfold campaign_record, tag_items_of. intros E T.
  destruct (py_getitem campaign "id") as [e|cid]; [discriminate|]. cbn in E.
  destruct (py_getitem campaign "attributes") as [e|attrs]; [discriminate|]. cbn in E.
  destruct (py_getitem attrs "name") as [e|cname]; [discriminate|]. cbn in E.
  destruct (tags_data_of campaign) as [e|td]; [discriminate|]. cbn in E, T.
  rewrite T in E. cbn in E.
  destruct (tags_loop data tag_items []) as [e|ts]; [discriminate|]. cbn in E.
  now injection E as <-.
Qed.

Lemma flatten_has_row c t before after :
  In t (tags c) -> In (row_of c t) (flatten (before ++ c :: after)).
Proof.
  intros Ht. rewrite flatten_flat_map. apply in_flat_map.
  exists c. split; [apply in_elt|]. now apply in_map.
Qed.

(** C6: when no entity of the side-loaded collection is a tag with the id
    of a reference, the name resolved for it is [None] and nothing is raised;
    the record of the campaign has, at the position of the reference, the
    entry with that id and the name [None], and the flattening has the row
    with that id and the name [None]. *)
Theorem missing_tag_name_is_none (data : pyval) (items : list pyval) (tid : pyval)
  (I : included_items data = inr items)
  (W : forallb is_entity items = true)
  (M : existsb (is_tag_with_id tid) items = false) :
  resolve_tag_name data tid = inr PNone
  /\ forall campaign tag_items c i tag,
       tag_items_of campaign = inr tag_items ->
       nth_error tag_items i = Some tag ->
       py_getitem tag "id" = inr tid ->
       campaign_record data campaign = inr c ->
       List.length (tags c) = List.length tag_items
       /\ nth_error (tags c) i = Some (mkTagRef tid PNone)
       /\ forall before after,
            In (mkCampaignTagRow (campaign_id c) (campaign_name c) tid PNone)
               (flatten (before ++ c :: after)).
Proof.
  assert (resolve_tag_name data tid = inr PNone) as R.
  { rewrite (resolve_by_scan _ _ _ I).
    rewrite <- (app_nil_r items), first_tag_name_skip by assumption.
    reflexivity. }
  split; [exact R|].
  intros campaign tag_items c i tag T Hn Hid C.
  pose proof (campaign_record_tags _ _ _ _ C T) as L.
  pose proof (tags_loop_nth _ _ _ _ _ _ _ L Hn Hid R) as Hnth.
  split; [now apply (tags_loop_length data)|].
  split; [exact Hnth|].
  intros before after.
  apply (flatten_has_row c (mkTagRef tid PNone)).
  now apply nth_error_In with i.
Qed.

(** C10: the name resolved for an id is the name of the first entity of
    type ["tag"] with that id in the order of the side-loaded collection,
    whatever comes after it, other tags with the same id included. *)
Theorem duplicate_tag_first_wins (data : pyval) (earlier later : list pyval)
  (entity tid name : pyval)
  (I : included_items data = inr (earlier ++ entity :: later))
  (W : forallb is_entity earlier = true)
  (M : existsb (is_tag_with_id tid) earlier = false)
  (T : is_tag_with_id tid entity = true)
  (N : entity_name entity = inr name) :
  resolve_tag_name data tid = inr name.
Proof.
  rewrite (resolve_by_scan _ _ _ I), first_tag_name_skip by assumption.
  now rewrite first_tag_name_hit.
Qed.

(** ** The fetch *)

Section FetchProperties.

Variable py_int_of_str : string -> option Z.
Variable sleep_error : Z -> option exn.
Variable urlparse_query : string -> result string.
Variable parse_qs : string -> list (string * list string).
Variable api_key : string.
Variable channel : string.

Abbreviation loop := (fetch_loop py_int_of_str sleep_error urlparse_query parse_qs api_key channel).
Abbreviation fetch := (fetch_campaign_ids_and_tags py_int_of_str sleep_error urlparse_query parse_qs api_key channel).
Abbreviation request_for := (make_request api_key channel).
Abbreviation next_cursor := (next_page_cursor urlparse_query parse_qs).

Lemma len_app_one {A : Type} (l : list A) (a : A) : len (l ++ [a]) = len l + 1.
Proof. unfold len. rewrite length_app. cbn. lia. Qed.

Lemma emit_returned ev (r : run) records tr :
  emit ev r = (Returned records, tr) -> exists tr', r = (Returned records, tr').
Proof.
  destruct r as [o tr']. unfold emit. cbn. intros E. injection E as -> _.
  now exists tr'.
Qed.

(** The loop guard fails: the accumulator is returned and nothing is done. *)
Lemma loop_exit limit script acc has_next page_cursor :
  has_next && (len acc <? limit) = false ->
  loop limit script acc has_next page_cursor = (Returned acc, []).
Proof. intros G. destruct script; cbn [fetch_loop]; now rewrite G. Qed.

(** The loop guard holds: one request is made and its reply handled. *)
Lemma loop_enter limit reply rest acc page_cursor :
  len acc < limit ->
  exists r, loop limit (reply :: rest) acc true page_cursor
            = emit (Get (request_for page_cursor)) r.
Proof.
  intros G. cbn [fetch_loop].
  replace (len acc <? limit) with true by (symmetry; apply Z.ltb_lt; exact G).
  cbn [andb]. eexists. reflexivity.
Qed.

(** *** The loop over the campaigns of a page *)

Lemma campaigns_loop_le limit data campaigns : forall acc acc',
  len acc < limit ->
  campaigns_loop limit data campaigns acc = inr acc' ->
  len acc' <= limit.
Proof.
  induction campaigns as [|c cs IH]; intros acc acc' G E; cbn in E.
  - injection E as <-. lia.
  - destruct (campaign_record data c) as [e|rec]; cbn in E; [discriminate|].
    destruct (len (acc ++ [rec]) >=? limit) eqn:B.
    + injection E as <-. rewrite len_app_one. lia.
    + apply (IH (acc ++ [rec])); [|exact E].
      rewrite Z.geb_leb in B. apply Z.leb_gt in B. exact B.
Qed.

Lemma campaigns_loop_break limit data cs1 cs2 : forall acc acc',
  len acc < limit ->
  campaigns_loop limit data cs1 acc = inr acc' ->
  limit <= len acc' ->
  campaigns_loop limit data (cs1 ++ cs2) acc = inr acc'.
Proof.
  induction cs1 as [|c cs IH]; intros acc acc' G E F; cbn in E.
  - injection E as <-. lia.
  - cbn. destruct (campaign_record data c) as [e|rec]; cbn in *; [discriminate|].
    destruct (len (acc ++ [rec]) >=? limit) eqn:B; [exact E|].
    apply IH; [|exact E|exact F].
    rewrite Z.geb_leb in B. apply Z.leb_gt in B. exact B.
Qed.

(** *** The bound on what the loop returns *)

Lemma loop_returns_le limit script : forall acc has_next page_cursor records tr,
  len acc <= limit ->
  loop limit script acc has_next page_cursor = (Returned records, tr) ->
  len records <= limit.
Proof.
  induction script as [|reply rest IH]; intros acc hn pc records tr A E;
    cbn [fetch_loop] in E.
  - destruct (hn && (len acc <? limit)); [discriminate|].
    injection E as <- _. exact A.
  - destruct (hn && (len acc <? limit)) eqn:G.
    2:{ injection E as <- _. exact A. }
    apply andb_prop in G as [_ G]. apply Z.ltb_lt in G.
    apply emit_returned in E as [tr1 E].
    destruct reply as [e|r]; [discriminate|].
    destruct (status_code r =? 429).
    { destruct (retry_after py_int_of_str r) as [e|n]; [discriminate|].
      apply emit_returned in E as [tr2 E].
      destruct (n <? 0); [discriminate|].
      destruct (sleep_error n); [discriminate|].
      apply emit_returned in E as [tr3 E].
      apply (IH _ _ _ _ _ A E). }
    destruct (negb (status_code r =? 200)); [discriminate|].
    destruct (json r) as [data|]; [|discriminate].
    destruct (py_contains data "data") as [e|[|]]; [discriminate| |].
    + destruct (campaigns_v <- py_getitem data "data";;
                campaigns <- py_iter campaigns_v;;
                campaigns_loop limit data campaigns acc) as [e|acc'] eqn:P;
        [discriminate|].
      assert (len acc' <= limit) as A'.
      { destruct (py_getitem data "data") as [e|v]; [discriminate|]. cbn in P.
        destruct (py_iter v) as [e|cs]; [discriminate|]. cbn in P.
        apply (campaigns_loop_le _ _ _ _ _ G P). }
      destruct (next_cursor data) as [e|cursor]; [discriminate|].
      apply (IH _ _ _ _ _ A' E).
    + apply emit_returned in E as [tr2 E].
      destruct (next_cursor data) as [e|cursor]; [discriminate|].
      apply (IH _ _ _ _ _ A E).
Qed.

(** C1: for a limit that is not negative, a fetch that returns gives at
    most [limit] records, whatever the script of responses.  Within a page
    the accumulator stays within the limit, and once it has reached the limit
    the rest of the page is not looked at; with the limit reached the loop
    makes no further request. *)
Theorem fetch_at_most_limit (limit : Z) (H : 0 <= limit) :
  (forall script records tr,
      fetch limit script = (Returned records, tr) -> len records <= limit)
  /\ (forall data campaigns acc acc',
         len acc < limit ->
         campaigns_loop limit data campaigns acc = inr acc' ->
         len acc' <= limit)
  /\ (forall data campaigns remaining acc acc',
         len acc < limit ->
         campaigns_loop limit data campaigns acc = inr acc' ->
         limit <= len acc' ->
         campaigns_loop limit data (campaigns ++ remaining) acc = inr acc')
  /\ (forall script acc has_next page_cursor,
         limit <= len acc ->
         loop limit script acc has_next page_cursor = (Returned acc, [])).
Proof.
  repeat split.
  - intros script records tr E.
    apply (loop_returns_le limit script [] true None records tr); [exact H|exact E].
  - intros data campaigns acc acc'. apply campaigns_loop_le.
  - intros data campaigns remaining acc acc'. apply campaigns_loop_break.
  - intros script acc hn pc F. apply loop_exit.
    replace (len acc <? limit) with false by (symmetry; apply Z.ltb_ge; exact F).
    apply andb_false_r.
Qed.

(** C9: with a limit of zero or less the loop guard fails at once: no
    request is made and the empty list is returned. *)
Theorem fetch_nonpositive_limit (limit : Z) (script : list (result response))
  (H : limit <= 0) :
  fetch limit script = (Returned [], []).
Proof.
  apply loop_exit. cbn [andb].
  apply Z.ltb_ge. exact H.
Qed.

(** *** One iteration, by the kind of reply *)

Lemma guard_holds limit (acc : list CampaignRecord) :
  len acc < limit -> true && (len acc <? limit) = true.
Proof. intros G. cbn [andb]. apply Z.ltb_lt. exact G. Qed.

Lemma loop_rate_limited limit r rest acc page_cursor n :
  len acc < limit ->
  status_code r = 429 ->
  retry_after py_int_of_str r = inr n ->
  0 <= n ->
  sleep_error n = None ->
  loop limit (inr r :: rest) acc true page_cursor
  = emit (Get (request_for page_cursor))
      (emit (Warning ("Rate limit exceeded. Retrying after "
                      +++ py_str_int n +++ " seconds."))
         (emit (Sleep n) (loop limit rest acc true page_cursor))).
Proof.
  intros G S D N SL. cbn [fetch_loop].
  rewrite (guard_holds _ _ G), S, D. cbn [Z.eqb Pos.eqb].
  replace (n <? 0) with false by (symmetry; apply Z.ltb_ge; exact N).
  rewrite SL. reflexivity.
Qed.

(** A page with campaigns: they are run through, then the cursor is read. *)
Lemma loop_page limit r rest acc page_cursor data campaigns acc' cursor :
  len acc < limit ->
  status_code r = 200 ->
  json r = Some data ->
  py_getitem data "data" = inr (PList campaigns) ->
  campaigns_loop limit data campaigns acc = inr acc' ->
  next_cursor data = inr cursor ->
  loop limit (inr r :: rest) acc true page_cursor
  = emit (Get (request_for page_cursor))
      (loop limit rest acc' (cursor_truthy cursor) cursor).
Proof.
  intros G S J D P N. cbn [fetch_loop].
  rewrite (guard_holds _ _ G), S, J. cbn [Z.eqb Pos.eqb negb].
  assert (py_contains data "data" = inr true) as C.
  { destruct data; try discriminate. cbn in D |- *.
    destruct (dict_lookup "data" kvs); [reflexivity|discriminate]. }
  rewrite C, D. cbn [bind py_iter ret]. rewrite P, N. reflexivity.
Qed.

(** A body without ['data']: a warning, then the cursor is read. *)
Lemma loop_no_data limit r rest acc page_cursor kvs cursor :
  len acc < limit ->
  status_code r = 200 ->
  json r = Some (PDict kvs) ->
  dict_lookup "data" kvs = None ->
  next_cursor (PDict kvs) = inr cursor ->
  loop limit (inr r :: rest) acc true page_cursor
  = emit (Get (request_for page_cursor))
      (emit (Warning ("No campaigns found in response: " +++ text r))
         (loop limit rest acc (cursor_truthy cursor) cursor)).
Proof.
  intros G S J D N. cbn [fetch_loop].
  rewrite (guard_holds _ _ G), S, J. cbn [Z.eqb Pos.eqb negb].
  cbn [py_contains ret]. rewrite D, N. reflexivity.
Qed.

(** Without a next link there is no cursor. *)
Lemma no_links_no_cursor kvs :
  dict_lookup "links" kvs = None -> next_cursor (PDict kvs) = inr None.
Proof. intros L. unfold next_page_cursor. cbn. now rewrite L. Qed.

Lemma no_next_no_cursor kvs links :
  dict_lookup "links" kvs = Some (PDict links) ->
  dict_lookup "next" links = None ->
  next_cursor (PDict kvs) = inr None.
Proof. intros L N. unfold next_page_cursor. cbn. rewrite L. cbn. now rewrite N. Qed.

(** C4: on a 429 the delay is the integer of the [Retry-After] header, 60
    without the header; for a delay that is not negative and that the
    platform can sleep, the run logs, sleeps for that delay and goes on with
    the rest of the script from the same accumulator and the same cursor, so
    the next request is the one just made, and a run that returns after the
    429 returns the same records with it. *)
Theorem rate_limit_retries_same_request (limit : Z) (r : response)
  (rest : list (result response)) (acc : list CampaignRecord)
  (page_cursor : option string) (n : Z)
  (G : len acc < limit)
  (S : status_code r = 429)
  (D : retry_after py_int_of_str r = inr n)
  (N : 0 <= n)
  (SL : sleep_error n = None) :
  loop limit (inr r :: rest) acc true page_cursor
  = emit (Get (request_for page_cursor))
      (emit (Warning ("Rate limit exceeded. Retrying after "
                      +++ py_str_int n +++ " seconds."))
         (emit (Sleep n) (loop limit rest acc true page_cursor)))
  /\ (retry_after_header r = None -> n = 60)
  /\ (forall s, retry_after_header r = Some s -> py_int_of_str s = Some n)
  /\ (forall reply rest', rest = reply :: rest' ->
        exists r', loop limit rest acc true page_cursor
                   = emit (Get (request_for page_cursor)) r')
  /\ (forall records tr,
        loop limit rest acc true page_cursor = (Returned records, tr) ->
        loop limit (inr r :: rest) acc true page_cursor
        = (Returned records,
           Get (request_for page_cursor)
           :: Warning ("Rate limit exceeded. Retrying after "
                       +++ py_str_int n +++ " seconds.")
           :: Sleep n :: tr)).
Proof.
  pose proof (loop_rate_limited limit r rest acc page_cursor n G S D N SL) as E.
  split; [exact E|]. split; [|split; [|split]].
  - intros H. unfold retry_after in D. rewrite H in D. now injection D.
  - intros s H. unfold retry_after in D. rewrite H in D.
    destruct (py_int_of_str s) as [m|]; [|discriminate].
    now injection D as ->.
  - intros reply rest' ->. now apply loop_enter.
  - intros records tr L. rewrite E, L. reflexivity.
Qed.

(** C5, as the code has it: a response whose status is neither 200 nor 429
    ends the fetch with the exception that carries the response body, after
    that one request and without any record; 200 alone is taken as success. *)
Theorem other_status_raises (limit : Z) (r : response)
  (rest : list (result response)) (acc : list CampaignRecord)
  (page_cursor : option string)
  (G : len acc < limit)
  (S2 : status_code r <> 200)
  (S4 : status_code r <> 429) :
  loop limit (inr r :: rest) acc true page_cursor
  = (Raised (Exception ("Error fetching campaigns: " +++ text r)),
     [Get (request_for page_cursor)]).
Proof.
  cbn [fetch_loop].
  rewrite (guard_holds _ _ G).
  apply Z.eqb_neq in S2, S4. rewrite S2, S4.
  reflexivity.
Qed.

(** C7: with a limit of 1 and a first page of two campaigns or more, the
    fetch returns the record of the first campaign alone and makes the one
    request, whatever cursor the page gives and whatever the script holds
    after it. *)
Theorem limit_one_stops_mid_page (r : response) (rest : list (result response))
  (data first second : pyval) (more : list pyval) (rec : CampaignRecord)
  (next : option string)
  (S : status_code r = 200)
  (J : json r = Some data)
  (D : py_getitem data "data" = inr (PList (first :: second :: more)))
  (R : campaign_record data first = inr rec)
  (N : next_cursor data = inr next) :
  fetch 1 (inr r :: rest) = (Returned [rec], [Get (request_for None)]).
Proof.
  unfold fetch_campaign_ids_and_tags.
  rewrite (loop_page 1 r rest [] None data (first :: second :: more) [rec] next);
    try assumption.
  - now rewrite loop_exit by apply andb_false_r.
  - reflexivity.
  - cbn [campaigns_loop]. rewrite R. reflexivity.
Qed.

(** C8, as the code has it: a 200 response whose body is an object without
    ['data'] gets a warning, adds no record, and the loop goes on from the
    cursor of the body's next link; so does, without the warning, a body whose
    ['data'] is the empty list.  Without a cursor the loop ends and returns
    the accumulator as it was, empty if nothing was fetched before. *)
Theorem no_campaigns_is_not_fatal (limit : Z) (r : response)
  (rest : list (result response)) (acc : list CampaignRecord)
  (page_cursor : option string) (kvs : list (string * pyval))
  (cursor : option string)
  (G : len acc < limit)
  (S : status_code r = 200)
  (J : json r = Some (PDict kvs))
  (N : next_cursor (PDict kvs) = inr cursor) :
  (dict_lookup "data" kvs = None ->
     loop limit (inr r :: rest) acc true page_cursor
     = emit (Get (request_for page_cursor))
         (emit (Warning ("No campaigns found in response: " +++ text r))
            (loop limit rest acc (cursor_truthy cursor) cursor))
     /\ (cursor_truthy cursor = false ->
           loop limit (inr r :: rest) acc true page_cursor
           = (Returned acc,
              [Get (request_for page_cursor);
               Warning ("No campaigns found in response: " +++ text r)])))
  /\ (dict_lookup "data" kvs = Some (PList []) ->
        loop limit (inr r :: rest) acc true page_cursor
        = emit (Get (request_for page_cursor))
            (loop limit rest acc (cursor_truthy cursor) cursor)
        /\ (cursor_truthy cursor = false ->
              loop limit (inr r :: rest) acc true page_cursor
              = (Returned acc, [Get (request_for page_cursor)])))
  /\ (dict_lookup "links" kvs = None -> cursor = None)
  /\ (forall links, dict_lookup "links" kvs = Some (PDict links) ->
                    dict_lookup "next" links = None -> cursor = None).
Proof.
  split; [|split; [|split]].
  - intros D.
    pose proof (loop_no_data limit r rest acc page_cursor kvs cursor G S J D N) as E.
    split; [exact E|].
    intros C. rewrite E, loop_exit by (now rewrite C). reflexivity.
  - intros D.
    assert (loop limit (inr r :: rest) acc true page_cursor
            = emit (Get (request_for page_cursor))
                (loop limit rest acc (cursor_truthy cursor) cursor)) as E.
    { apply (loop_page limit r rest acc page_cursor (PDict kvs) [] acc cursor);
        try assumption; [|reflexivity].
      cbn. now rewrite D. }
    split; [exact E|].
    intros C. rewrite E, loop_exit by (now rewrite C). reflexivity.
  - intros L. rewrite (no_links_no_cursor _ L) in N. now injection N.
  - intros links L X. rewrite (no_next_no_cursor _ _ L X) in N. now injection N.
Qed.

End FetchProperties.

(** ** The scenarios of the specification, run *)

(** Two campaigns on a single page, limit 10: two records, two rows. *)
Example scenario_two_campaigns :
  reference_fetch "k" "email" 10 [ok last_page]
  = (Returned [record_a; record_b], [Get first_request])
  /\ flatten [record_a; record_b]
     = [ mkCampaignTagRow (PStr "A") (PStr "Alpha") (PStr "t1") (PStr "VIP");
         mkCampaignTagRow (PStr "A") (PStr "Alpha") (PStr "t2") (PStr "Sale") ].
Proof. split; reflexivity. Qed.

(** Two pages, the second reached through the cursor of the first. *)
Example scenario_two_pages :
  reference_fetch "k" "email" 10 [ok first_page; ok last_page]
  = (Returned [record_a; record_b; record_a; record_b],
     [Get first_request; Get (make_request "k" "email" (Some "c2"))]).
Proof. reflexivity. Qed.

(** A 429 without the header: the delay is 60. *)
Example scenario_default_delay :
  reference_fetch "k" "email" 10 [inr (rate_limited None); ok last_page]
  = (Returned [record_a; record_b],
     [Get first_request;
      Warning "Rate limit exceeded. Retrying after 60 seconds.";
      Sleep 60;
      Get first_request]).
Proof. reflexivity. Qed.

(** A missing tag name goes through to the row as [None]. *)
Example scenario_missing_tag_name :
  exists records,
    fst (reference_fetch "k" "email" 10 [ok page_missing_tag]) = Returned records
    /\ flatten records
       = [ mkCampaignTagRow (PStr "A") (PStr "Alpha") (PStr "t1") (PStr "VIP");
           mkCampaignTagRow (PStr "A") (PStr "Alpha") (PStr "t9") PNone ].
Proof. eexists. split; reflexivity. Qed.

(** ** Instances of the theorems and inputs on which a claim fails *)

Lemma fetch_at_most_limit_witness :
  0 <= 1
  /\ reference_fetch "k" "email" 1 [ok first_page; ok last_page]
     = (Returned [record_a], [Get first_request])
  /\ len [record_a] <= 1.
Proof.
  assert (0 <= 1) as H by lia.
  assert (reference_fetch "k" "email" 1 [ok first_page; ok last_page]
          = (Returned [record_a], [Get first_request])) as E by reflexivity.
  split; [exact H|]. split; [exact E|].
  exact (proj1 (fetch_at_most_limit Reference.int_of_str Reference.sleep_error Reference.query
                  Reference.parse_qs "k" "email" 1 H) _ _ _ E).
Defined.

Lemma fetch_nonpositive_limit_witness :
  -3 <= 0
  /\ reference_fetch "k" "email" (-3) [ok first_page; ok last_page] = (Returned [], []).
Proof.
  assert (-3 <= 0) as H by lia.
  split; [exact H|].
  exact (fetch_nonpositive_limit Reference.int_of_str Reference.sleep_error Reference.query
           Reference.parse_qs "k" "email" (-3) [ok first_page; ok last_page] H).
Defined.

Lemma rate_limit_retries_same_request_witness :
  len (@nil CampaignRecord) < 10
  /\ status_code (rate_limited (Some "5")) = 429
  /\ retry_after Reference.int_of_str (rate_limited (Some "5")) = inr 5
  /\ 0 <= 5
  /\ Reference.sleep_error 5 = None
  /\ reference_fetch "k" "email" 10 [inr (rate_limited (Some "5")); ok last_page]
     = (Returned [record_a; record_b],
        [Get first_request;
         Warning "Rate limit exceeded. Retrying after 5 seconds.";
         Sleep 5;
         Get first_request]).
Proof.
  assert (len (@nil CampaignRecord) < 10) as G by (cbn; lia).
  assert (status_code (rate_limited (Some "5")) = 429) as S by reflexivity.
  assert (retry_after Reference.int_of_str (rate_limited (Some "5")) = inr 5) as D
    by reflexivity.
  assert (0 <= 5) as N by lia.
  assert (Reference.sleep_error 5 = None) as SL by reflexivity.
  repeat (split; [assumption|]).
  apply (rate_limit_retries_same_request Reference.int_of_str Reference.sleep_error Reference.query
           Reference.parse_qs "k" "email" 10 (rate_limited (Some "5"))
           [ok last_page] [] None 5 G S D N SL).
  reflexivity.
Defined.

Lemma other_status_raises_witness :
  len (@nil CampaignRecord) < 10
  /\ 500 <> 200
  /\ 500 <> 429
  /\ reference_fetch "k" "email" 10
       [inr (mkResponse 500 None "server error" None); ok last_page]
     = (Raised (Exception "Error fetching campaigns: server error"),
        [Get first_request]).
Proof.
  assert (len (@nil CampaignRecord) < 10) as G by (cbn; lia).
  assert (500 <> 200) as S2 by discriminate.
  assert (500 <> 429) as S4 by discriminate.
  repeat (split; [assumption|]).
  exact (other_status_raises Reference.int_of_str Reference.sleep_error Reference.query
           Reference.parse_qs "k" "email" 10
           (mkResponse 500 None "server error" None) [ok last_page] [] None G S2 S4).
Defined.

(** A 201 response with a well-formed page is not taken as a success. *)
Lemma status_201_is_an_error :
  (200 <=? 201) && (201 <? 300) = true
  /\ reference_fetch "k" "email" 10
       [inr (mkResponse 201 None "created" (Some last_page))]
     = (Raised (Exception "Error fetching campaigns: created"), [Get first_request]).
Proof. split; reflexivity. Qed.

Lemma limit_one_stops_mid_page_witness :
  py_getitem first_page "data" = inr (PList [campaign_a; campaign_b])
  /\ campaign_record first_page campaign_a = inr record_a
  /\ next_page_cursor Reference.query Reference.parse_qs first_page = inr (Some "c2")
  /\ reference_fetch "k" "email" 1 [ok first_page; ok last_page]
     = (Returned [record_a], [Get first_request]).
Proof.
  assert (py_getitem first_page "data" = inr (PList [campaign_a; campaign_b])) as D
    by reflexivity.
  assert (campaign_record first_page campaign_a = inr record_a) as R by reflexivity.
  assert (next_page_cursor Reference.query Reference.parse_qs first_page
          = inr (Some "c2")) as N by reflexivity.
  repeat (split; [assumption|]).
  exact (limit_one_stops_mid_page Reference.int_of_str Reference.sleep_error Reference.query
           Reference.parse_qs "k" "email"
           (mkResponse 200 None "<json>" (Some first_page)) [ok last_page]
           first_page campaign_a campaign_b [] record_a (Some "c2")
           eq_refl eq_refl D R N).
Defined.

Lemma no_campaigns_is_not_fatal_witness :
  len (@nil CampaignRecord) < 10
  /\ next_page_cursor Reference.query Reference.parse_qs (PDict []) = inr None
  /\ reference_fetch "k" "email" 10 [inr (mkResponse 200 None "{}" (Some (PDict [])))]
     = (Returned [],
        [Get first_request; Warning "No campaigns found in response: {}"]).
Proof.
  assert (len (@nil CampaignRecord) < 10) as G by (cbn; lia).
  assert (next_page_cursor Reference.query Reference.parse_qs (PDict []) = inr None)
    as N by reflexivity.
  repeat (split; [assumption|]).
  exact (proj2 (proj1 (no_campaigns_is_not_fatal Reference.int_of_str Reference.sleep_error Reference.query
                         Reference.parse_qs "k" "email" 10
                         (mkResponse 200 None "{}" (Some (PDict []))) [] [] None
                         [] None G eq_refl eq_refl N) eq_refl) eq_refl).
Defined.

(** A page whose ['data'] is the empty list holds no campaign, and no
    warning is logged for it. *)
Lemma empty_data_list_logs_nothing :
  reference_fetch "k" "email" 10 [ok (page [] [] None)]
  = (Returned [], [Get first_request])
  /\ warnings_of (snd (reference_fetch "k" "email" 10 [ok (page [] [] None)])) = [].
Proof. split; reflexivity. Qed.

Lemma missing_tag_name_is_none_witness :
  included_items page_missing_tag = inr [tag_entity "t1" "VIP"]
  /\ forallb is_entity [tag_entity "t1" "VIP"] = true
  /\ existsb (is_tag_with_id (PStr "t9")) [tag_entity "t1" "VIP"] = false
  /\ resolve_tag_name page_missing_tag (PStr "t9") = inr PNone.
Proof.
  assert (included_items page_missing_tag = inr [tag_entity "t1" "VIP"]) as I
    by reflexivity.
  assert (forallb is_entity [tag_entity "t1" "VIP"] = true) as W by reflexivity.
  assert (existsb (is_tag_with_id (PStr "t9")) [tag_entity "t1" "VIP"] = false) as M
    by reflexivity.
  repeat (split; [assumption|]).
  exact (proj1 (missing_tag_name_is_none page_missing_tag [tag_entity "t1" "VIP"]
                  (PStr "t9") I W M)).
Defined.

Lemma duplicate_tag_first_wins_witness :
  included_items page_duplicate_tag
  = inr ([tag_entity "t0" "Zero"] ++ tag_entity "t1" "VIP" :: [tag_entity "t1" "Other"])
  /\ is_tag_with_id (PStr "t1") (tag_entity "t1" "VIP") = true
  /\ is_tag_with_id (PStr "t1") (tag_entity "t1" "Other") = true
  /\ resolve_tag_name page_duplicate_tag (PStr "t1") = inr (PStr "VIP").
Proof.
  assert (included_items page_duplicate_tag
          = inr ([tag_entity "t0" "Zero"] ++ tag_entity "t1" "VIP"
                 :: [tag_entity "t1" "Other"])) as I by reflexivity.
  assert (is_tag_with_id (PStr "t1") (tag_entity "t1" "VIP") = true) as T by reflexivity.
  split; [exact I|]. split; [exact T|]. split; [reflexivity|].
  exact (duplicate_tag_first_wins page_duplicate_tag [tag_entity "t0" "Zero"]
           [tag_entity "t1" "Other"] (tag_entity "t1" "VIP") (PStr "t1") (PStr "VIP")
           I eq_refl eq_refl T eq_refl).
Defined.

(** * Further properties of the code *)

(** ** The flattening *)

(** Every row comes from a campaign of the list and one of its tags, and
    every such pair gives a row. *)
Theorem flatten_row_membership (campaign_list : list CampaignRecord)
  (row : CampaignTagRow) :
  In row (flatten campaign_list)
  <-> exists c t, In c campaign_list /\ In t (tags c)
                  /\ row = mkCampaignTagRow (campaign_id c) (campaign_name c)
                                            (tag_id t) (tag_name t).
Proof.
  rewrite flatten_flat_map, in_flat_map. split.
  - intros [c [Hc Hr]]. apply in_map_iff in Hr as [t [<- Ht]].
    now exists c, t.
  - intros [c [t [Hc [Ht ->]]]]. exists c. split; [exact Hc|].
    apply in_map_iff. now exists t.
Qed.

Lemma flatten_nil_tagless (campaign_list : list CampaignRecord) :
  flatten campaign_list = [] <-> Forall (fun c => tags c = []) campaign_list.
Proof.
  rewrite flatten_flat_map.
  induction campaign_list as [|c l IH]; cbn.
  - split; [constructor|reflexivity].
  - split.
    + intros E. apply app_eq_nil in E as [E1 E2].
      constructor; [|now apply IH].
      destruct (tags c); [reflexivity|discriminate].
    + intros F. inversion F as [|? ? Hc Hl]; subst.
      rewrite Hc. cbn. now apply IH.
Qed.

(** There is no row at all exactly when no campaign of the list has a tag. *)
Theorem flatten_empty_iff_no_tags (campaign_list : list CampaignRecord) :
  flatten campaign_list = []
  <-> forall c, In c campaign_list -> tags c = [].
Proof.
  rewrite flatten_nil_tagless. apply Forall_forall.
Qed.

(** ** Building a campaign's record *)

(** The tag list of a campaign has one entry per tag reference, in the order
    of the references, each made of the reference's id and the name resolved
    for it; a reference that raises (no ['id'], say) fails the whole list. *)
Theorem tags_loop_maps_references (data : pyval) (items : list pyval) :
  tags_loop data items []
  = mapM (fun tag =>
            tid <- py_getitem tag "id";;
            name <- resolve_tag_name data tid;;
            ret (mkTagRef tid name))
         items.
Proof.
  induction items as [|tag rest IH]; [reflexivity|].
  cbn.
  destruct (py_getitem tag "id") as [e|tid]; [reflexivity|]. cbn.
  destruct (resolve_tag_name data tid) as [e|name]; [reflexivity|]. cbn.
  rewrite tags_loop_acc, IH.
  now destruct (mapM _ rest).
Qed.

Lemma py_eq_str (a : pyval) (s : string) : py_eq a (PStr s) = true -> a = PStr s.
Proof.
  destruct a; cbn; try discriminate.
  intros E. apply String.eqb_eq in E. now subst.
Qed.

Lemma py_eq_str_neq (a : pyval) (s : string) : a <> PStr s -> py_eq a (PStr s) = false.
Proof.
  intros N. destruct (py_eq a (PStr s)) eqn:E; [|reflexivity].
  now apply py_eq_str in E.
Qed.

(** A reference whose id is a string is matched by an included tag whose id
    is that very string and by no other: an item of another type, or with an
    id that is another string or not a string at all, is passed over. *)
Theorem string_ids_match_exactly (kvs : list (string * pyval)) (ty id : pyval)
  (s : string) (rest : list pyval)
  (Ty : dict_lookup "type" kvs = Some ty)
  (Id : dict_lookup "id" kvs = Some id) :
  (ty = PStr "tag" -> id = PStr s ->
     first_tag_name (PDict kvs :: rest) (PStr s) = entity_name (PDict kvs))
  /\ (ty <> PStr "tag" \/ id <> PStr s ->
        first_tag_name (PDict kvs :: rest) (PStr s) = first_tag_name rest (PStr s)).
Proof.
  split.
  - intros -> ->. cbn. rewrite Ty, Id. cbn. now rewrite String.eqb_refl.
  - intros N. cbn. rewrite Ty. cbn.
    destruct (py_eq ty (PStr "tag")) eqn:E; [|reflexivity].
    apply py_eq_str in E. destruct N as [N|N]; [contradiction|].
    rewrite Id. cbn. now rewrite (py_eq_str_neq _ _ N).
Qed.

(** A campaign without ['relationships'], or whose relationships have no
    ['tags'], or whose tags have no ['data'], gives a record without tags. *)
Theorem campaign_without_tag_data (data : pyval) (kvs : list (string * pyval))
  (cid attributes cname : pyval)
  (Id : dict_lookup "id" kvs = Some cid)
  (At : dict_lookup "attributes" kvs = Some attributes)
  (Nm : py_getitem attributes "name" = inr cname)
  (Rel : dict_lookup "relationships" kvs = None
         \/ exists rel, dict_lookup "relationships" kvs = Some (PDict rel)
             /\ (dict_lookup "tags" rel = None
                 \/ exists tg, dict_lookup "tags" rel = Some (PDict tg)
                     /\ dict_lookup "data" tg = None)) :
  campaign_record data (PDict kvs) = inr (mkCampaignRecord cid cname []).
Proof.
  unfold campaign_record. cbn. rewrite Id, At. cbn. rewrite Nm. cbn.
  unfold tags_data_of. cbn.
  destruct Rel as [R|[rel [R [T|[tg [T D]]]]]]; rewrite R; cbn.
  - reflexivity.
  - now rewrite T.
  - rewrite T. cbn. now rewrite D.
Qed.

(** A [null] in the place of the relationships, of their tags or of the
    tags' data is not taken as "no tags": it raises. *)
Theorem null_tag_data_raises (data : pyval) (kvs : list (string * pyval))
  (cid attributes cname : pyval)
  (Id : dict_lookup "id" kvs = Some cid)
  (At : dict_lookup "attributes" kvs = Some attributes)
  (Nm : py_getitem attributes "name" = inr cname) :
  (dict_lookup "relationships" kvs = Some PNone ->
     campaign_record data (PDict kvs) = inl AttributeError)
  /\ (forall rel, dict_lookup "relationships" kvs = Some (PDict rel) ->
        dict_lookup "tags" rel = Some PNone ->
        campaign_record data (PDict kvs) = inl AttributeError)
  /\ (forall rel tg, dict_lookup "relationships" kvs = Some (PDict rel) ->
        dict_lookup "tags" rel = Some (PDict tg) ->
        dict_lookup "data" tg = Some PNone ->
        campaign_record data (PDict kvs) = inl TypeError).
Proof.
  unfold campaign_record, tags_data_of. cbn. rewrite Id, At. cbn. rewrite Nm. cbn.
  repeat split.
  - intros R. now rewrite R.
  - intros rel R T. rewrite R. cbn. now rewrite T.
  - intros rel tg R T D. rewrite R. cbn. rewrite T. cbn. now rewrite D.
Qed.

(** ** The fetch loop *)

Section FetchBehaviour.

Variable py_int_of_str : string -> option Z.
Variable sleep_error : Z -> option exn.
Variable urlparse_query : string -> result string.
Variable parse_qs : string -> list (string * list string).
Variable api_key : string.
Variable channel : string.

Abbreviation loop := (fetch_loop py_int_of_str sleep_error urlparse_query parse_qs api_key channel).
Abbreviation fetch := (fetch_campaign_ids_and_tags py_int_of_str sleep_error urlparse_query parse_qs api_key channel).
Abbreviation request_for := (make_request api_key channel).
Abbreviation next_cursor := (next_page_cursor urlparse_query parse_qs).

(** *** The campaigns of a page *)

Lemma mapM_length {A B : Type} (f : A -> result B) (l : list A) : forall out,
  mapM f l = inr out -> List.length out = List.length l.
Proof.
  induction l as [|a l IH]; intros out E; cbn in E.
  - now injection E as <-.
  - destruct (f a) as [e|b]; [discriminate|]. cbn in E.
    destruct (mapM f l) as [e|bs]; [discriminate|]. cbn in E.
    injection E as <-. cbn. f_equal. now apply IH.
Qed.

(** With room for [k + 1] more records the loop takes the first [k + 1]
    campaigns of the page. *)
Lemma campaigns_loop_firstn limit data campaigns : forall acc k,
  limit = len acc + Z.of_nat (S k) ->
  campaigns_loop limit data campaigns acc
  = (recs <- mapM (campaign_record data) (firstn (S k) campaigns);; ret (acc ++ recs)).
Proof.
  induction campaigns as [|c cs IH]; intros acc k L.
  - cbn. now rewrite app_nil_r.
  - cbn [campaigns_loop firstn mapM].
    destruct (campaign_record data c) as [e|rec]; [reflexivity|].
    cbn [bind]. rewrite len_app_one.
    destruct k as [|k].
    + replace (len acc + 1 >=? limit) with true
        by (symmetry; rewrite Z.geb_leb; apply Z.leb_le; lia).
      reflexivity.
    + replace (len acc + 1 >=? limit) with false
        by (symmetry; rewrite Z.geb_leb; apply Z.leb_gt; lia).
      rewrite (IH (acc ++ [rec]) k) by (rewrite len_app_one; lia).
      destruct (mapM (campaign_record data) (firstn (S k) cs)) as [e|recs];
        [reflexivity|].
      cbn. now rewrite <- app_assoc.
Qed.

(** The campaigns that fit under the limit are all taken. *)
Lemma campaigns_loop_under limit data good : forall acc recs cs,
  mapM (campaign_record data) good = inr recs ->
  len acc + len good < limit ->
  campaigns_loop limit data (good ++ cs) acc
  = campaigns_loop limit data cs (acc ++ recs).
Proof.
  induction good as [|c good IH]; intros acc recs cs E L; cbn in E.
  - injection E as <-. now rewrite app_nil_r.
  - destruct (campaign_record data c) as [e|rec] eqn:R; [discriminate|]. cbn in E.
    destruct (mapM (campaign_record data) good) as [e|recs'] eqn:M; [discriminate|].
    cbn in E. injection E as <-.
    assert (len (c :: good) = len good + 1) as Lc by (unfold len; cbn; lia).
    assert (0 <= len good) as Pg by (unfold len; lia).
    cbn [app campaigns_loop]. rewrite R. cbn [bind]. rewrite len_app_one.
    replace (len acc + 1 >=? limit) with false
      by (symmetry; rewrite Z.geb_leb; apply Z.leb_gt; lia).
    rewrite (IH (acc ++ [rec]) recs' cs eq_refl) by (rewrite len_app_one; lia).
    now rewrite <- app_assoc.
Qed.

(** The loop over a page's campaigns, in closed form: with room left under
    the limit it builds the records of the first [limit - len acc] campaigns,
    in order, and appends them; the campaigns after those are not looked at,
    and an exception among those taken is the result. *)
Theorem campaigns_loop_takes_prefix (limit : Z) (data : pyval)
  (campaigns : list pyval) (acc : list CampaignRecord)
  (G : len acc < limit) :
  campaigns_loop limit data campaigns acc
  = (recs <- mapM (campaign_record data)
                  (firstn (Z.to_nat (limit - len acc)) campaigns);;
     ret (acc ++ recs)).
Proof.
  assert (Z.to_nat (limit - len acc) = S (Z.to_nat (limit - len acc - 1))) as K by lia.
  rewrite K. apply campaigns_loop_firstn. lia.
Qed.

(** A page whose campaigns raise: the exception leaves the fetch. *)
Lemma loop_page_raises limit r rest acc page_cursor data campaigns e :
  len acc < limit ->
  status_code r = 200 ->
  json r = Some data ->
  py_getitem data "data" = inr (PList campaigns) ->
  campaigns_loop limit data campaigns acc = inl e ->
  loop limit (inr r :: rest) acc true page_cursor
  = (Raised e, [Get (request_for page_cursor)]).
Proof.
  intros G S J D P. cbn [fetch_loop].
  rewrite (guard_holds _ _ G), S, J. cbn [Z.eqb Pos.eqb negb].
  assert (py_contains data "data" = inr true) as C.
  { destruct data; try discriminate. cbn in D |- *.
    destruct (dict_lookup "data" kvs); [reflexivity|discriminate]. }
  rewrite C, D. cbn [bind py_iter ret]. rewrite P. reflexivity.
Qed.

(** A page that holds at least [limit] campaigns fills the fetch at once:
    the records of its first [limit] campaigns are returned after the one
    request, whatever cursor it carries and whatever the script holds next. *)
Theorem limit_reached_on_first_page (limit : Z) (r : response)
  (rest : list (result response)) (data : pyval) (campaigns : list pyval)
  (recs : list CampaignRecord) (next : option string)
  (L : 0 < limit)
  (S : status_code r = 200)
  (J : json r = Some data)
  (D : py_getitem data "data" = inr (PList campaigns))
  (Many : limit <= len campaigns)
  (R : mapM (campaign_record data) (firstn (Z.to_nat limit) campaigns) = inr recs)
  (N : next_cursor data = inr next) :
  fetch limit (inr r :: rest) = (Returned recs, [Get (request_for None)])
  /\ len recs = limit.
Proof.
  assert (len recs = limit) as E.
  { unfold len in *. rewrite (mapM_length _ _ _ R), length_firstn. lia. }
  split; [|exact E].
  unfold fetch_campaign_ids_and_tags.
  rewrite (loop_page py_int_of_str sleep_error urlparse_query parse_qs api_key channel
             limit r rest [] None data campaigns recs next);
    try assumption.
  - rewrite loop_exit; [reflexivity|].
    replace (len recs <? limit) with false by (symmetry; apply Z.ltb_ge; lia).
    apply andb_false_r.
  - assert (Z.to_nat limit = Datatypes.S (Z.to_nat (limit - 1))) as K by lia.
    rewrite K in R.
    rewrite (campaigns_loop_firstn limit data campaigns [] (Z.to_nat (limit - 1)))
      by (change (len (@nil CampaignRecord)) with 0; lia).
    rewrite R. reflexivity.
Qed.

(** One campaign that raises (no ['id'], say), met before the limit is
    reached, fails the whole fetch: the exception leaves it after the request
    of that page, and the records gathered so far are not returned. *)
Theorem malformed_campaign_fails_fetch (limit : Z) (r : response)
  (rest : list (result response)) (acc : list CampaignRecord)
  (page_cursor : option string) (data : pyval) (good more : list pyval)
  (bad : pyval) (recs : list CampaignRecord) (e : exn)
  (G : len acc + len good < limit)
  (S : status_code r = 200)
  (J : json r = Some data)
  (D : py_getitem data "data" = inr (PList (good ++ bad :: more)))
  (Good : mapM (campaign_record data) good = inr recs)
  (Bad : campaign_record data bad = inl e) :
  loop limit (inr r :: rest) acc true page_cursor
  = (Raised e, [Get (request_for page_cursor)]).
Proof.
  assert (0 <= len good) as P by (unfold len; lia).
  apply (loop_page_raises limit r rest acc page_cursor data (good ++ bad :: more) e);
    try assumption; [lia|].
  rewrite (campaigns_loop_under limit data good acc recs _ Good G).
  cbn [campaigns_loop]. now rewrite Bad.
Qed.

(** *** Rate limiting *)

Lemma retriable_inv r :
  retriable py_int_of_str sleep_error r = true ->
  status_code r = 429
  /\ retry_after py_int_of_str r = inr (delay_of py_int_of_str r)
  /\ 0 <= delay_of py_int_of_str r
  /\ sleep_error (delay_of py_int_of_str r) = None.
Proof.
  unfold retriable, delay_of. intros H. apply andb_prop in H as [H1 H2].
  apply Z.eqb_eq in H1.
  destruct (retry_after py_int_of_str r) as [e|n]; [discriminate|].
  apply andb_prop in H2 as [H2 H3]. apply Z.leb_le in H2.
  destruct (sleep_error n); [discriminate|]. auto.
Qed.

(** However many 429 responses come in a row, each with a delay that is
    not negative and that the platform can sleep, the loop neither gives up
    nor fails: each one costs a request, a log line and a sleep, and the run goes
    on with what follows from the same state; a script of nothing but 429
    responses leaves the run waiting for the next response. *)
Theorem rate_limit_retried_without_bound (limit : Z) (rs : list response)
  (rest : list (result response)) (acc : list CampaignRecord)
  (page_cursor : option string)
  (G : len acc < limit)
  (R : forallb (retriable py_int_of_str sleep_error) rs = true) :
  loop limit (map inr rs ++ rest) acc true page_cursor
  = (fst (loop limit rest acc true page_cursor),
     flat_map (retry_events py_int_of_str (request_for page_cursor)) rs
     ++ snd (loop limit rest acc true page_cursor))
  /\ loop limit (map inr rs) acc true page_cursor
     = (Pending, flat_map (retry_events py_int_of_str (request_for page_cursor)) rs).
Proof.
  assert (forall rest,
            loop limit (map inr rs ++ rest) acc true page_cursor
            = (fst (loop limit rest acc true page_cursor),
               flat_map (retry_events py_int_of_str (request_for page_cursor)) rs
               ++ snd (loop limit rest acc true page_cursor))) as E.
  { clear rest. induction rs as [|r rs IH]; intros rest.
    - cbn [map app flat_map]. now destruct (loop limit rest acc true page_cursor).
    - cbn [forallb] in R. apply andb_prop in R as [R1 R2].
      destruct (retriable_inv r R1) as [S [D [N SL]]].
      cbn [map app flat_map].
      rewrite (loop_rate_limited py_int_of_str sleep_error urlparse_query parse_qs api_key channel
                 limit r (map inr rs ++ rest) acc page_cursor _ G S D N SL).
      rewrite (IH R2 rest). reflexivity. }
  split; [apply E|].
  rewrite <- (app_nil_r (map inr rs)), E.
  cbn [fetch_loop]. rewrite (guard_holds _ _ G). cbn [fst snd].
  now rewrite app_nil_r.
Qed.


(** A [Retry-After] delay that is not negative but that the platform
    cannot sleep (for CPython, one whose nanoseconds do not fit 64 bits) makes
    the fetch raise what [time.sleep] raises, after the log line and without
    sleeping or retrying. *)
Theorem unsleepable_delay_raises (limit : Z) (r : response)
  (rest : list (result response)) (acc : list CampaignRecord)
  (page_cursor : option string) (n : Z) (e : exn)
  (G : len acc < limit)
  (S : status_code r = 429)
  (D : retry_after py_int_of_str r = inr n)
  (N : 0 <= n)
  (SL : sleep_error n = Some e) :
  loop limit (inr r :: rest) acc true page_cursor
  = (Raised e,
     [Get (request_for page_cursor);
      Warning ("Rate limit exceeded. Retrying after "
               +++ py_str_int n +++ " seconds.")]).
Proof.
  cbn [fetch_loop]. rewrite (guard_holds _ _ G), S, D. cbn [Z.eqb Pos.eqb].
  replace (n <? 0) with false by (symmetry; apply Z.ltb_ge; exact N).
  rewrite SL. reflexivity.
Qed.

(** *** Bodies that are not what the loop expects *)

(** A 200 response whose JSON body is not an object (a list, a string, a
    number, [null]) never gives records: the fetch raises [TypeError] or
    [AttributeError]. *)
Theorem non_object_body_raises (limit : Z) (r : response)
  (rest : list (result response)) (acc : list CampaignRecord)
  (page_cursor : option string) (data : pyval)
  (G : len acc < limit)
  (S : status_code r = 200)
  (J : json r = Some data)
  (ND : is_dict data = false) :
  exists e, fst (loop limit (inr r :: rest) acc true page_cursor) = Raised e
            /\ (e = TypeError \/ e = AttributeError).
Proof.
  cbn [fetch_loop]. rewrite (guard_holds _ _ G), S, J. cbn [Z.eqb Pos.eqb negb].
  destruct data as [| b | n | s | xs | kvs]; try discriminate.
  - exists TypeError. auto.
  - exists TypeError. auto.
  - exists TypeError. auto.
  - cbn [py_contains ret].
    destruct (is_substring "data" s).
    + exists TypeError. auto.
    + exists AttributeError. auto.
  - cbn [py_contains ret].
    destruct (existsb (fun x => py_eq x (PStr "data")) xs).
    + exists TypeError. auto.
    + exists AttributeError. auto.
Qed.

(** A body whose ['data'] is [null], a number or a bool is not taken as an
    empty page: the fetch raises [TypeError]. *)
Theorem scalar_data_raises (limit : Z) (r : response)
  (rest : list (result response)) (acc : list CampaignRecord)
  (page_cursor : option string) (kvs : list (string * pyval)) (v : pyval)
  (G : len acc < limit)
  (S : status_code r = 200)
  (J : json r = Some (PDict kvs))
  (D : dict_lookup "data" kvs = Some v)
  (V : v = PNone \/ (exists b, v = PBool b) \/ (exists n, v = PInt n)) :
  loop limit (inr r :: rest) acc true page_cursor
  = (Raised TypeError, [Get (request_for page_cursor)]).
Proof.
  cbn [fetch_loop]. rewrite (guard_holds _ _ G), S, J. cbn [Z.eqb Pos.eqb negb].
  cbn [py_contains py_getitem ret]. rewrite D. cbn [bind].
  destruct V as [->|[[b ->]|[n ->]]]; reflexivity.
Qed.

(** *** From one page to the next *)

Lemma make_request_with_cursor c :
  c <> "" ->
  req_params (request_for (Some c)) = base_params channel ++ [("page[cursor]", c)].
Proof.
  intros N. unfold make_request, cursor_truthy. cbn.
  apply String.eqb_neq in N. now rewrite N.
Qed.

(** When the page's next link is a URL whose query has [page[cursor]], the
    first value of that parameter is the cursor: if the limit is not reached
    the next request is made, and it carries the usual parameters followed by
    [page[cursor]] with that value. *)
Theorem cursor_is_sent_with_next_request (limit : Z) (r : response)
  (reply : result response) (rest : list (result response))
  (acc acc' : list CampaignRecord) (page_cursor : option string)
  (kvs links : list (string * pyval)) (campaigns : list pyval)
  (u query c : string) (others : list string)
  (G : len acc < limit)
  (S : status_code r = 200)
  (J : json r = Some (PDict kvs))
  (D : dict_lookup "data" kvs = Some (PList campaigns))
  (P : campaigns_loop limit (PDict kvs) campaigns acc = inr acc')
  (G' : len acc' < limit)
  (Lk : dict_lookup "links" kvs = Some (PDict links))
  (Nx : dict_lookup "next" links = Some (PStr u))
  (U : u <> "")
  (Q : urlparse_query u = inr query)
  (C : qs_lookup "page[cursor]" (parse_qs query) = Some (c :: others))
  (NE : c <> "") :
  (exists x, loop limit (inr r :: reply :: rest) acc true page_cursor
             = emit (Get (request_for page_cursor))
                 (emit (Get (request_for (Some c))) x))
  /\ req_params (request_for (Some c))
     = base_params channel ++ [("page[cursor]", c)].
Proof.
  split; [|now apply make_request_with_cursor].
  assert (next_cursor (PDict kvs) = inr (Some c)) as N.
  { unfold next_page_cursor. cbn. rewrite Lk. cbn. rewrite Nx. cbn.
    apply String.eqb_neq in U. rewrite U. cbn. rewrite Q. cbn. now rewrite C. }
  rewrite (loop_page py_int_of_str sleep_error urlparse_query parse_qs api_key channel
             limit r (reply :: rest) acc page_cursor (PDict kvs) campaigns acc'
             (Some c) G S J);
    [|cbn; now rewrite D|exact P|exact N].
  assert (cursor_truthy (Some c) = true) as T.
  { cbn. apply String.eqb_neq in NE. now rewrite NE. }
  rewrite T.
  destruct (loop_enter py_int_of_str sleep_error urlparse_query parse_qs api_key channel
              limit reply rest acc' (Some c) G') as [x X].
  exists x. now rewrite X.
Qed.

(** A page from which no cursor comes (no next link, a link without
    [page[cursor]], an empty cursor) is the last one: the records gathered are
    returned and nothing more is requested, whatever the script still holds. *)
Theorem falsy_cursor_ends_pagination (limit : Z) (r : response)
  (rest : list (result response)) (acc acc' : list CampaignRecord)
  (page_cursor cursor : option string) (data : pyval) (campaigns : list pyval)
  (G : len acc < limit)
  (S : status_code r = 200)
  (J : json r = Some data)
  (D : py_getitem data "data" = inr (PList campaigns))
  (P : campaigns_loop limit data campaigns acc = inr acc')
  (N : next_cursor data = inr cursor)
  (F : cursor = None \/ cursor = Some "") :
  loop limit (inr r :: rest) acc true page_cursor
  = (Returned acc', [Get (request_for page_cursor)]).
Proof.
  rewrite (loop_page py_int_of_str sleep_error urlparse_query parse_qs api_key channel
             limit r rest acc page_cursor data campaigns acc' cursor G S J D P N).
  rewrite loop_exit; [reflexivity|].
  destruct F as [->| ->]; reflexivity.
Qed.

(** *** What every run does *)

(** One iteration with the guard holding: the request, then one of the five
    ways the loop body goes. *)
Lemma loop_step_cases limit reply rest acc has_next page_cursor :
  has_next && (len acc <? limit) = true ->
  exists x,
    loop limit (reply :: rest) acc has_next page_cursor
    = emit (Get (request_for page_cursor)) x
    /\ ((exists e, x = (Raised e, []))
        \/ (exists e m, x = (Raised e, [Warning m]))
        \/ (exists m n, 0 <= n
              /\ x = emit (Warning m)
                       (emit (Sleep n) (loop limit rest acc has_next page_cursor)))
        \/ (exists acc' cursor, x = loop limit rest acc' (cursor_truthy cursor) cursor)
        \/ (exists m cursor,
              x = emit (Warning m) (loop limit rest acc (cursor_truthy cursor) cursor))).
Proof.
  intros G. cbn [fetch_loop]. rewrite G. eexists. split; [reflexivity|].
  destruct reply as [e|r]; [left; now exists e|].
  destruct (status_code r =? 429).
  { destruct (retry_after py_int_of_str r) as [e|n]; [left; now exists e|].
    destruct (n <? 0) eqn:N.
    - right; left. now exists ValueError, ("Rate limit exceeded. Retrying after "
                                          +++ py_str_int n +++ " seconds.").
    - destruct (sleep_error n) as [e|].
      + right; left. now exists e, ("Rate limit exceeded. Retrying after "
                                    +++ py_str_int n +++ " seconds.").
      + right; right; left. apply Z.ltb_ge in N.
        exists ("Rate limit exceeded. Retrying after " +++ py_str_int n +++ " seconds."), n.
        now split. }
  destruct (negb (status_code r =? 200)); [left; now eexists|].
  destruct (json r) as [data|]; [|left; now eexists].
  destruct (py_contains data "data") as [e|[|]]; [left; now exists e| |].
  - destruct (campaigns_v <- py_getitem data "data";;
              campaigns <- py_iter campaigns_v;;
              campaigns_loop limit data campaigns acc) as [e|acc'];
      [left; now exists e|].
    destruct (next_cursor data) as [e|cursor]; [left; now exists e|].
    right; right; right; left. now exists acc', cursor.
  - destruct (next_cursor data) as [e|cursor].
    + right; left. now exists e, ("No campaigns found in response: " +++ text r).
    + right; right; right; right.
      now exists ("No campaigns found in response: " +++ text r), cursor.
Qed.

Lemma loop_nil limit acc has_next page_cursor :
  has_next && (len acc <? limit) = true ->
  loop limit [] acc has_next page_cursor = (Pending, []).
Proof. intros G. cbn [fetch_loop]. now rewrite G. Qed.

(** A property of traces kept by each kind of event holds of every run. *)
Lemma loop_trace_ind (P : list event -> Prop) :
  P [] ->
  (forall c tr, P tr -> P (Get (request_for c) :: tr)) ->
  (forall m tr, P tr -> P (Warning m :: tr)) ->
  (forall n tr, 0 <= n -> P tr -> P (Sleep n :: tr)) ->
  forall limit script acc has_next page_cursor,
    P (snd (loop limit script acc has_next page_cursor)).
Proof.
  intros P0 Pget Pwarn Psleep limit script.
  induction script as [|reply rest IH]; intros acc hn pc;
    destruct (hn && (len acc <? limit)) eqn:G;
    try (rewrite loop_exit by exact G; exact P0).
  - rewrite loop_nil by exact G. exact P0.
  - destruct (loop_step_cases limit reply rest acc hn pc G) as [x [E C]].
    rewrite E. cbn [emit snd]. apply Pget.
    destruct C as [[e ->]|[[e [m ->]]|[[m [n [N ->]]]|[[acc' [cursor ->]]|[m [cursor ->]]]]]];
      cbn [emit snd]; auto.
Qed.

(** Every request of every run goes to the campaigns endpoint with the same
    three headers, the key in [Authorization] only, and with the same three
    parameters, followed by [page[cursor]] with a cursor that is not empty or
    by nothing. *)
Theorem requests_are_uniform (limit : Z) (script : list (result response))
  (acc : list CampaignRecord) (has_next : bool) (page_cursor : option string) :
  Forall (fun rq =>
            req_url rq = "https://a.klaviyo.com/api/campaigns/"
            /\ req_headers rq
               = [ ("Authorization", "Klaviyo-API-Key " +++ api_key);
                   ("Accept", "application/json");
                   ("Revision", "2024-07-15") ]
            /\ (req_params rq = base_params channel
                \/ exists c, c <> ""
                   /\ req_params rq = base_params channel ++ [("page[cursor]", c)]))
         (requests_of (snd (loop limit script acc has_next page_cursor))).
Proof.
  apply loop_trace_ind; cbn [requests_of flat_map app]; auto.
  intros c tr H. constructor; [|exact H].
  split; [reflexivity|]. split; [reflexivity|].
  destruct c as [c|]; [|now left].
  unfold make_request, cursor_truthy. cbn [req_params].
  destruct (String.eqb c "") eqn:E; cbn [negb]; [now left|].
  right. exists c. split; [now apply String.eqb_neq|reflexivity].
Qed.

(** No run makes more requests than the script has replies, and a run left
    waiting has used them all; a run sleeps at most once per request, and never
    for a negative time. *)
Theorem requests_and_sleeps_are_bounded (limit : Z) (script : list (result response))
  (acc : list CampaignRecord) (has_next : bool) (page_cursor : option string) :
  let r := loop limit script acc has_next page_cursor in
  (List.length (requests_of (snd r)) <= List.length script)%nat
  /\ (List.length (sleeps_of (snd r)) <= List.length (requests_of (snd r)))%nat
  /\ Forall (fun n => 0 <= n) (sleeps_of (snd r))
  /\ (fst r = Pending -> List.length (requests_of (snd r)) = List.length script).
Proof.
  cbv zeta. revert acc has_next page_cursor.
  induction script as [|reply rest IH]; intros acc hn pc;
    destruct (hn && (len acc <? limit)) eqn:G;
    try (rewrite loop_exit by exact G; cbn;
         repeat split; try lia; try constructor; discriminate).
  - rewrite loop_nil by exact G. cbn. repeat split; try lia; constructor.
  - destruct (loop_step_cases limit reply rest acc hn pc G) as [x [E C]].
    rewrite E.
    destruct C as [[e ->]|[[e [m ->]]|[[m [n [N ->]]]|[[acc' [cursor ->]]|[m [cursor ->]]]]]].
    + cbn. repeat split; try lia; try constructor; discriminate.
    + cbn. repeat split; try lia; try constructor; discriminate.
    + destruct (IH acc hn pc) as [I1 [I2 [I3 I4]]].
      cbn [emit fst snd requests_of sleeps_of flat_map app List.length].
      fold (requests_of (snd (loop limit rest acc hn pc))).
      fold (sleeps_of (snd (loop limit rest acc hn pc))).
      repeat split; try lia; [now constructor|].
      intros Pd. rewrite (I4 Pd). reflexivity.
    + destruct (IH acc' (cursor_truthy cursor) cursor) as [I1 [I2 [I3 I4]]].
      cbn [emit fst snd requests_of sleeps_of flat_map app List.length].
      fold (requests_of (snd (loop limit rest acc' (cursor_truthy cursor) cursor))).
      fold (sleeps_of (snd (loop limit rest acc' (cursor_truthy cursor) cursor))).
      repeat split; try lia; [exact I3|].
      intros Pd. rewrite (I4 Pd). reflexivity.
    + destruct (IH acc (cursor_truthy cursor) cursor) as [I1 [I2 [I3 I4]]].
      cbn [emit fst snd requests_of sleeps_of flat_map app List.length].
      fold (requests_of (snd (loop limit rest acc (cursor_truthy cursor) cursor))).
      fold (sleeps_of (snd (loop limit rest acc (cursor_truthy cursor) cursor))).
      repeat split; try lia; [exact I3|].
      intros Pd. rewrite (I4 Pd). reflexivity.
Qed.

End FetchBehaviour.

(** ** [main]: from the fetch to the load *)

Section MainBehaviour.

Variable py_int_of_str : string -> option Z.
Variable sleep_error : Z -> option exn.
Variable urlparse_query : string -> result string.
Variable parse_qs : string -> list (string * list string).
Variable KLAVIYO_API_KEY : string.
Variable FULL_TABLE_ID : string.

Abbreviation fetched := (fetch_campaign_ids_and_tags py_int_of_str sleep_error urlparse_query parse_qs
                       KLAVIYO_API_KEY "email" 1000).
Abbreviation run_main := (main py_int_of_str sleep_error urlparse_query parse_qs
                        KLAVIYO_API_KEY FULL_TABLE_ID).

Lemma loads_of_app tr1 tr2 : loads_of (tr1 ++ tr2) = loads_of tr1 ++ loads_of tr2.
Proof. apply flat_map_app. Qed.

Lemma main_warnings_of_app tr1 tr2 :
  main_warnings_of (tr1 ++ tr2) = main_warnings_of tr1 ++ main_warnings_of tr2.
Proof. apply flat_map_app. Qed.

(** The events of the fetch hold no load and no warning of [main]. *)
Lemma fetching_is_quiet (tr : list event) :
  loads_of (map Fetching tr) = [] /\ main_warnings_of (map Fetching tr) = [].
Proof. induction tr as [|ev tr [IH1 IH2]]; cbn; auto. Qed.

Lemma load_rows_loads rows load :
  loads_of (snd (load_rows FULL_TABLE_ID rows load)) = [(FULL_TABLE_ID, rows)].
Proof.
  unfold load_rows. destruct load as [e|]; cbn [snd];
    rewrite !loads_of_app; destruct rows; reflexivity.
Qed.

(** When the fetch does not return (an exception, or the script runs out),
    [main] ends the same way and the table is not touched: no load is made. *)
Theorem main_failed_fetch_loads_nothing (script : list (result response))
  (load : option exn)
  (F : forall records, fst (fetched script) <> Returned records) :
  loads_of (snd (run_main script load)) = []
  /\ fst (run_main script load)
     = match fst (fetched script) with
       | Raised e => Failed e
       | _ => Waiting
       end.
Proof.
  unfold main.
  destruct (fst (fetched script)) as [records|e|] eqn:O.
  - now destruct (F records).
  - cbn. split; [apply fetching_is_quiet|reflexivity].
  - cbn. split; [apply fetching_is_quiet|reflexivity].
Qed.

(** When the fetch returns, [main] makes exactly one load: into
    [FULL_TABLE_ID], of the flattening of at most 1000 records; it completes
    when the load job does and fails with the job's exception otherwise. *)
Theorem main_loads_flattened_fetch (script : list (result response))
  (load : option exn) (records : list CampaignRecord)
  (R : fst (fetched script) = Returned records) :
  loads_of (snd (run_main script load)) = [(FULL_TABLE_ID, flatten records)]
  /\ len records <= 1000
  /\ fst (run_main script load)
     = match load with
       | None => Completed
       | Some e => Failed e
       end.
Proof.
  split; [|split].
  - unfold main. rewrite R. cbn [snd].
    change (?a :: ?l ++ ?b :: ?c :: ?d) with ((a :: l) ++ [b; c] ++ d).
    rewrite !loads_of_app, load_rows_loads.
    cbn [loads_of flat_map app].
    now rewrite (proj1 (fetching_is_quiet _)).
  - destruct (fetched script) as [o tr] eqn:E. cbn in R. subst o.
    apply (loop_returns_le py_int_of_str sleep_error urlparse_query parse_qs KLAVIYO_API_KEY
             "email" 1000 script [] true None records tr); [cbn; lia|exact E].
  - unfold main. rewrite R. cbn [fst]. unfold load_rows. now destruct load.
Qed.

(** A fetch that returns no tagged campaign (no campaign at all, or
    campaigns without tags) still loads: the table is replaced by no rows, and
    the one warning of [main] is logged. *)
Theorem main_empty_result_replaces_table (script : list (result response))
  (load : option exn) (records : list CampaignRecord)
  (R : fst (fetched script) = Returned records)
  (T : forall c, In c records -> tags c = []) :
  loads_of (snd (run_main script load)) = [(FULL_TABLE_ID, [])]
  /\ main_warnings_of (snd (run_main script load)) = ["No campaign tags fetched."].
Proof.
  assert (flatten records = []) as E.
  { apply flatten_nil_tagless, Forall_forall, T. }
  unfold main. rewrite R, E. cbn [snd].
  change (?a :: ?l ++ ?b :: ?c :: ?d) with ((a :: l) ++ [b; c] ++ d).
  rewrite !loads_of_app, !main_warnings_of_app, load_rows_loads.
  cbn [loads_of main_warnings_of flat_map app].
  rewrite (proj1 (fetching_is_quiet _)), (proj2 (fetching_is_quiet _)).
  split; [reflexivity|].
  unfold load_rows. destruct load; reflexivity.
Qed.

End MainBehaviour.

(** ** Instances of the further properties *)

Lemma string_ids_match_exactly_witness :
  dict_lookup "type" tag_with_number_id = Some (PStr "tag")
  /\ dict_lookup "id" tag_with_number_id = Some (PInt 1)
  /\ first_tag_name [PDict tag_with_number_id; tag_entity "1" "Real"] (PStr "1")
     = inr (PStr "Real").
Proof.
  assert (dict_lookup "type" tag_with_number_id = Some (PStr "tag")) as Ty by reflexivity.
  assert (dict_lookup "id" tag_with_number_id = Some (PInt 1)) as Id by reflexivity.
  assert (PStr "tag" <> PStr "tag" \/ PInt 1 <> PStr "1") as N by (right; discriminate).
  repeat (split; [assumption|]).
  exact (eq_trans
           (proj2 (string_ids_match_exactly tag_with_number_id (PStr "tag") (PInt 1)
                     "1" [tag_entity "1" "Real"] Ty Id) N)
           eq_refl).
Defined.

Lemma campaign_without_tag_data_witness :
  dict_lookup "relationships" bare_campaign = None
  /\ campaign_record last_page (PDict bare_campaign)
     = inr (mkCampaignRecord (PStr "A") (PStr "Alpha") []).
Proof.
  assert (dict_lookup "relationships" bare_campaign = None) as R by reflexivity.
  split; [exact R|].
  exact (campaign_without_tag_data last_page bare_campaign (PStr "A")
           (PDict [("name", PStr "Alpha")]) (PStr "Alpha")
           eq_refl eq_refl eq_refl (or_introl R)).
Defined.

Lemma null_tag_data_raises_witness :
  dict_lookup "relationships" campaign_null_relationships = Some PNone
  /\ campaign_record last_page (PDict campaign_null_relationships) = inl AttributeError.
Proof.
  assert (dict_lookup "relationships" campaign_null_relationships = Some PNone) as R
    by reflexivity.
  split; [exact R|].
  exact (proj1 (null_tag_data_raises last_page campaign_null_relationships (PStr "A")
                  (PDict [("name", PStr "Alpha")]) (PStr "Alpha")
                  eq_refl eq_refl eq_refl) R).
Defined.

Lemma campaigns_loop_takes_prefix_witness :
  len (@nil CampaignRecord) < 2
  /\ campaigns_loop 2 last_page [campaign_a; campaign_b; campaign_without_id] []
     = inr [record_a; record_b].
Proof.
  assert (len (@nil CampaignRecord) < 2) as G by (cbn; lia).
  split; [exact G|].
  exact (eq_trans
           (campaigns_loop_takes_prefix 2 last_page
              [campaign_a; campaign_b; campaign_without_id] [] G)
           eq_refl).
Defined.

Lemma limit_reached_on_first_page_witness :
  0 < 2
  /\ 2 <= len [campaign_a; campaign_b]
  /\ reference_fetch "k" "email" 2 [ok first_page; ok last_page]
     = (Returned [record_a; record_b], [Get first_request]).
Proof.
  assert (0 < 2) as L by lia.
  assert (2 <= len [campaign_a; campaign_b]) as M by (cbn; lia).
  repeat (split; [assumption|]).
  exact (proj1 (limit_reached_on_first_page Reference.int_of_str Reference.sleep_error Reference.query
                  Reference.parse_qs "k" "email" 2 (ok_response first_page)
                  [ok last_page] first_page [campaign_a; campaign_b]
                  [record_a; record_b] (Some "c2")
                  L eq_refl eq_refl eq_refl M eq_refl eq_refl)).
Defined.

Lemma malformed_campaign_fails_fetch_witness :
  len (@nil CampaignRecord) + len [campaign_a] < 10
  /\ campaign_record page_with_bad_campaign campaign_without_id = inl (KeyError "id")
  /\ reference_fetch "k" "email" 10 [ok page_with_bad_campaign; ok last_page]
     = (Raised (KeyError "id"), [Get first_request]).
Proof.
  assert (len (@nil CampaignRecord) + len [campaign_a] < 10) as G by (cbn; lia).
  assert (campaign_record page_with_bad_campaign campaign_without_id
          = inl (KeyError "id")) as B by reflexivity.
  repeat (split; [assumption|]).
  exact (malformed_campaign_fails_fetch Reference.int_of_str Reference.sleep_error Reference.query
           Reference.parse_qs "k" "email" 10 (ok_response page_with_bad_campaign)
           [ok last_page] [] None page_with_bad_campaign [campaign_a] [campaign_b]
           campaign_without_id [record_a] (KeyError "id")
           G eq_refl eq_refl eq_refl eq_refl B).
Defined.

Lemma rate_limit_retried_without_bound_witness :
  len (@nil CampaignRecord) < 10
  /\ forallb (retriable Reference.int_of_str Reference.sleep_error)
       [rate_limited (Some "5"); rate_limited None; rate_limited (Some "0")] = true
  /\ reference_loop 10
       (map inr [rate_limited (Some "5"); rate_limited None; rate_limited (Some "0")])
       [] None
     = (Pending,
        flat_map (retry_events Reference.int_of_str first_request)
          [rate_limited (Some "5"); rate_limited None; rate_limited (Some "0")]).
Proof.
  assert (len (@nil CampaignRecord) < 10) as G by (cbn; lia).
  assert (forallb (retriable Reference.int_of_str Reference.sleep_error)
            [rate_limited (Some "5"); rate_limited None; rate_limited (Some "0")]
          = true) as R by reflexivity.
  repeat (split; [assumption|]).
  exact (proj2 (rate_limit_retried_without_bound Reference.int_of_str Reference.sleep_error Reference.query
                  Reference.parse_qs "k" "email" 10
                  [rate_limited (Some "5"); rate_limited None; rate_limited (Some "0")]
                  [] [] None G R)).
Defined.


Lemma non_object_body_raises_witness :
  len (@nil CampaignRecord) < 10
  /\ is_dict (PList []) = false
  /\ exists e, fst (reference_fetch "k" "email" 10 [ok (PList []); ok last_page])
               = Raised e
               /\ (e = TypeError \/ e = AttributeError).
Proof.
  assert (len (@nil CampaignRecord) < 10) as G by (cbn; lia).
  assert (is_dict (PList []) = false) as D by reflexivity.
  repeat (split; [assumption|]).
  exact (non_object_body_raises Reference.int_of_str Reference.sleep_error Reference.query
           Reference.parse_qs "k" "email" 10 (ok_response (PList []))
           [ok last_page] [] None (PList []) G eq_refl eq_refl D).
Defined.

Lemma scalar_data_raises_witness :
  len (@nil CampaignRecord) < 10
  /\ dict_lookup "data" [("data", PNone)] = Some PNone
  /\ reference_fetch "k" "email" 10 [ok (PDict [("data", PNone)]); ok last_page]
     = (Raised TypeError, [Get first_request]).
Proof.
  assert (len (@nil CampaignRecord) < 10) as G by (cbn; lia).
  assert (dict_lookup "data" [("data", PNone)] = Some PNone) as D by reflexivity.
  repeat (split; [assumption|]).
  exact (scalar_data_raises Reference.int_of_str Reference.sleep_error Reference.query
           Reference.parse_qs "k" "email" 10 (ok_response (PDict [("data", PNone)]))
           [ok last_page] [] None [("data", PNone)] PNone
           G eq_refl eq_refl D (or_introl eq_refl)).
Defined.

Lemma cursor_is_sent_with_next_request_witness :
  len (@nil CampaignRecord) < 10
  /\ len [record_a; record_b] < 10
  /\ Reference.query "https://a.klaviyo.com/api/campaigns/?page[cursor]=c2"
     = inr "page[cursor]=c2"
  /\ qs_lookup "page[cursor]" (Reference.parse_qs "page[cursor]=c2") = Some ["c2"]
  /\ (exists x,
        reference_loop 10 [ok (PDict first_page_items); ok last_page] [] None
        = emit (Get first_request)
            (emit (Get (make_request "k" "email" (Some "c2"))) x))
  /\ req_params (make_request "k" "email" (Some "c2"))
     = base_params "email" ++ [("page[cursor]", "c2")].
Proof.
  assert (len (@nil CampaignRecord) < 10) as G by (cbn; lia).
  assert (len [record_a; record_b] < 10) as G' by (cbn; lia).
  assert (Reference.query "https://a.klaviyo.com/api/campaigns/?page[cursor]=c2"
          = inr "page[cursor]=c2") as Q by reflexivity.
  assert (qs_lookup "page[cursor]" (Reference.parse_qs "page[cursor]=c2")
          = Some ["c2"]) as C by reflexivity.
  assert ("https://a.klaviyo.com/api/campaigns/?page[cursor]=c2" <> "") as U
    by discriminate.
  assert ("c2" <> "") as NE by discriminate.
  repeat (split; [assumption|]).
  exact (cursor_is_sent_with_next_request Reference.int_of_str Reference.sleep_error Reference.query
           Reference.parse_qs "k" "email" 10 (ok_response (PDict first_page_items))
           (ok last_page) [] [] [record_a; record_b] None
           first_page_items
           [("next", PStr "https://a.klaviyo.com/api/campaigns/?page[cursor]=c2")]
           [campaign_a; campaign_b]
           "https://a.klaviyo.com/api/campaigns/?page[cursor]=c2"
           "page[cursor]=c2" "c2" []
           G eq_refl eq_refl eq_refl eq_refl G' eq_refl eq_refl U Q C NE).
Defined.

Lemma falsy_cursor_ends_pagination_witness :
  len (@nil CampaignRecord) < 10
  /\ next_page_cursor Reference.query Reference.parse_qs last_page = inr None
  /\ reference_fetch "k" "email" 10 [ok last_page; ok first_page]
     = (Returned [record_a; record_b], [Get first_request]).
Proof.
  assert (len (@nil CampaignRecord) < 10) as G by (cbn; lia).
  assert (next_page_cursor Reference.query Reference.parse_qs last_page = inr None)
    as N by reflexivity.
  repeat (split; [assumption|]).
  exact (falsy_cursor_ends_pagination Reference.int_of_str Reference.sleep_error Reference.query
           Reference.parse_qs "k" "email" 10 (ok_response last_page) [ok first_page]
           [] [record_a; record_b] None None last_page [campaign_a; campaign_b]
           G eq_refl eq_refl eq_refl eq_refl N (or_introl eq_refl)).
Defined.

Lemma main_failed_fetch_loads_nothing_witness :
  (forall records,
      fst (reference_fetch "k" "email" 1000
             [inr (mkResponse 500 None "server error" None)])
      <> Returned records)
  /\ loads_of (snd (reference_main [inr (mkResponse 500 None "server error" None)] None))
     = [].
Proof.
  assert (forall records,
             fst (reference_fetch "k" "email" 1000
                    [inr (mkResponse 500 None "server error" None)])
             <> Returned records) as F by (intros records; discriminate).
  split; [exact F|].
  exact (proj1 (main_failed_fetch_loads_nothing Reference.int_of_str Reference.sleep_error Reference.query
                  Reference.parse_qs "k" "p.d.t"
                  [inr (mkResponse 500 None "server error" None)] None F)).
Defined.

Lemma main_loads_flattened_fetch_witness :
  fst (reference_fetch "k" "email" 1000 [ok last_page]) = Returned [record_a; record_b]
  /\ loads_of (snd (reference_main [ok last_page] None))
     = [("p.d.t",
         [ mkCampaignTagRow (PStr "A") (PStr "Alpha") (PStr "t1") (PStr "VIP");
           mkCampaignTagRow (PStr "A") (PStr "Alpha") (PStr "t2") (PStr "Sale") ])].
Proof.
  assert (fst (reference_fetch "k" "email" 1000 [ok last_page])
          = Returned [record_a; record_b]) as R by reflexivity.
  split; [exact R|].
  exact (proj1 (main_loads_flattened_fetch Reference.int_of_str Reference.sleep_error Reference.query
                  Reference.parse_qs "k" "p.d.t" [ok last_page] None
                  [record_a; record_b] R)).
Defined.

Lemma main_empty_result_replaces_table_witness :
  fst (reference_fetch "k" "email" 1000 [ok (page [campaign_b] [] None)])
  = Returned [record_b]
  /\ (forall c, In c [record_b] -> tags c = [])
  /\ loads_of (snd (reference_main [ok (page [campaign_b] [] None)] None))
     = [("p.d.t", [])]
  /\ main_warnings_of (snd (reference_main [ok (page [campaign_b] [] None)] None))
     = ["No campaign tags fetched."].
Proof.
  assert (fst (reference_fetch "k" "email" 1000 [ok (page [campaign_b] [] None)])
          = Returned [record_b]) as R by reflexivity.
  assert (forall c, In c [record_b] -> tags c = []) as T.
  { intros c [<-|[]]. reflexivity. }
  repeat (split; [assumption|]).
  exact (main_empty_result_replaces_table Reference.int_of_str Reference.sleep_error Reference.query
           Reference.parse_qs "k" "p.d.t" [ok (page [campaign_b] [] None)] None
           [record_b] R T).
Defined.

Lemma unsleepable_delay_raises_witness :
  len (@nil CampaignRecord) < 10
  /\ retry_after Reference.int_of_str (rate_limited (Some "10000000000"))
     = inr 10000000000
  /\ 0 <= 10000000000
  /\ Reference.sleep_error 10000000000 = Some OverflowError
  /\ reference_fetch "k" "email" 10
       [inr (rate_limited (Some "10000000000")); ok last_page]
     = (Raised OverflowError,
        [Get first_request;
         Warning "Rate limit exceeded. Retrying after 10000000000 seconds."]).
Proof.
  assert (len (@nil CampaignRecord) < 10) as G by (cbn; lia).
  assert (retry_after Reference.int_of_str (rate_limited (Some "10000000000"))
          = inr 10000000000) as D by reflexivity.
  assert (0 <= 10000000000) as N by lia.
  assert (Reference.sleep_error 10000000000 = Some OverflowError) as SL by reflexivity.
  repeat (split; [assumption|]).
  exact (unsleepable_delay_raises Reference.int_of_str Reference.sleep_error
           Reference.query Reference.parse_qs "k" "email" 10
           (rate_limited (Some "10000000000")) [ok last_page] [] None
           10000000000 OverflowError G eq_refl D N SL).
Defined.
